(** * The ingestion pipeline of the betting analytics dashboard (app.py)

    A shallow embedding of [load_data], [remove_duplicate_bets], the table
    selection of the script and its two future-date comparisons, followed
    by the properties of the specification that concern them. *)

From Stdlib Require Import ZArith.
From stdpp Require Import gmap strings list.

Local Open Scope string_scope.
Local Open Scope nat_scope.
Local Open Scope list_scope.
Local Open Scope stdpp_scope.

(** ** Cells, rows and frames *)

(** A cell of a row.  The first four constructors are the scalars of a
    decoded JSON object (a missing key and JSON null are both [VNull], as
    pandas fills an absent key with a missing value); numbers are only
    ever compared for equality by the pipeline.  [VTimestamp aware t] is a
    [pd.Timestamp] ([aware] tells whether it carries a timezone, [t] counts
    nanoseconds) and [VNaT] is pandas' not-a-time marker. *)
Inductive value :=
  | VNull
  | VBool (b : bool)
  | VNum (n : Z)
  | VStr (s : string)
  | VTimestamp (aware : bool) (t : Z)
  | VNaT.

#[global] Instance value_eq_dec : EqDecision value.
Proof. solve_decision. Defined.

(** One row: a Python dict from column name to cell. *)
Abbreviation record := (gmap string value).

(** A [pd.DataFrame]: its column labels (the script only tests membership
    in [df.columns]) and its rows in order. *)
Record DataFrame := mkDataFrame {
  columns : gset string;
  rows : list record
}.

(** [len(df)] *)
Definition len (df : DataFrame) : nat := length (rows df).

(** The cell of row [r] under column [col]. *)
Definition cell (r : record) (col : string) : value := default VNull (r !! col).

(** A row widened to the column set [cols]: absent cells become missing. *)
Definition fill (cols : gset string) (r : record) : record :=
  r ∪ gset_to_gmap VNull cols.

(** [pd.DataFrame(all_data)] for a list of dicts. *)
Definition DataFrame_of_records (all_data : list record) : DataFrame :=
  let cols := ⋃ (dom <$> all_data) in
  {| columns := cols; rows := fill cols <$> all_data |}.

(** [df[col]] as the list of its cells. *)
Definition series (df : DataFrame) (col : string) : list value :=
  (λ r, cell r col) <$> rows df.

(** [df[col] = values], for a series as long as the frame. *)
Definition set_column (df : DataFrame) (col : string) (values : list value) : DataFrame :=
  {| columns := {[col]} ∪ columns df;
     rows := zip_with (λ r v, <[col := v]> r) (rows df) values |}.

(** [df[col] = v] for a scalar [v]. *)
Definition set_scalar (df : DataFrame) (col : string) (v : value) : DataFrame :=
  {| columns := {[col]} ∪ columns df;
     rows := (λ r, <[col := v]> r) <$> rows df |}.

(** [isnull()] on a cell. *)
Definition isnull (v : value) : bool :=
  match v with
  | VNull | VNaT => true
  | _ => false
  end.

(** [df[col].isnull().sum()] *)
Definition null_count_of (vs : list value) : nat :=
  length (filter (λ v, isnull v = true) vs).

(** The tuple of a row under the columns [subset]. *)
Definition row_key (subset : list string) (r : record) : list value :=
  cell r <$> subset.

(** Keep the rows whose key has not been [seen], in order ([keep='first']). *)
Fixpoint keep_first (subset : list string) (seen : list (list value))
    (rs : list record) : list record :=
  match rs with
  | [] => []
  | r :: rs' =>
      if decide (row_key subset r ∈ seen)
      then keep_first subset seen rs'
      else r :: keep_first subset (row_key subset r :: seen) rs'
  end.

(** [df.drop_duplicates(subset=subset, keep='first')] *)
Definition drop_duplicates (subset : list string) (df : DataFrame) : DataFrame :=
  {| columns := columns df; rows := keep_first subset [] (rows df) |}.

(** [pd.concat(frames, ignore_index=True)]: the union of the columns, the
    rows of the frames one after the other, each widened to that union. *)
Definition pd_concat (frames : list DataFrame) : DataFrame :=
  let cols := ⋃ (columns <$> frames) in
  {| columns := cols; rows := fill cols <$> mjoin (rows <$> frames) |}.

(** [df[mask]] for a boolean series [mask]. *)
Fixpoint select_rows (rs : list record) (mask : list bool) : list record :=
  match rs, mask with
  | r :: rs', b :: mask' =>
      if b then r :: select_rows rs' mask' else select_rows rs' mask'
  | _, _ => []
  end.

Definition boolean_index (df : DataFrame) (mask : list bool) : DataFrame :=
  {| columns := columns df; rows := select_rows (rows df) mask |}.

(** ** What the script shows *)

(** The texts of the messages, with the values interpolated into them. *)
Inductive message :=
  | ErrorLoadingData (table_name : string) (status_code : Z)
  | ValuesNotConverted (null_count : nat) (col table_name : string)
  | ErrorConverting (col table_name : string)
  | RemovedDuplicates (removed_count : nat) (table_name : string)
  | CleanedData (n : nat) (table_name : string)
  | FilteredUnique (n removed : nat)
  | FailedToLoadTables
  | FailedToLoadTable (table_option : string)
  | FoundFutureDates (n : nat) (col : string)
  | FilteredOutFuture (future_count : nat)
  | NoDataAfterFiltering
  | DateColumnNotAvailable (col : string)
  | NoDataForCumulativeProfit.

Inductive ui_event :=
  | st_error (m : message)
  | st_warning (m : message)
  | st_info (m : message)
  | st_sidebar_error (m : message)
  | st_sidebar_warning (m : message)
  | st_sidebar_info (m : message)
  | st_sidebar_success (m : message).

#[global] Instance message_eq_dec : EqDecision message.
Proof. solve_decision. Defined.

#[global] Instance ui_event_eq_dec : EqDecision ui_event.
Proof. solve_decision. Defined.

(** ** The remote store *)

(** The answer to one GET: the status and the decoded JSON array. *)
Record response := mkResponse {
  status_code : Z;
  json : list record
}.

(** [requests.get] on the table's URL with [params = {limit, offset}]. *)
Definition server := string → nat → nat → response.

(** A store that answers the request for page [i] of any table with the
    [i]-th element of [pages], and with an empty array past the last. *)
Definition pages_server (pages : list (list record)) : server :=
  λ _ limit offset,
    {| status_code := 200; json := default [] (pages !! (offset / limit)) |}.

(** A store that answers like [srv] except from page [n] on, where it
    answers with the status [code]. *)
Definition failing_from (n : nat) (code : Z) (srv : server) : server :=
  λ table_name limit offset,
    if decide (n ≤ offset / limit)
    then {| status_code := code; json := [] |}
    else srv table_name limit offset.

(** ** The pagination loop of [load_data] *)

(** The variables of the loop, with the offsets requested so far and what
    [st.error] has shown. *)
Record fetch_state := mkFetch {
  all_data : list record;
  page : nat;
  requested : list nat;
  fetch_shown : list ui_event
}.

(** The [while True] loop; [fuel] bounds the number of iterations and
    [None] means the bound was reached before a [break]. *)
Fixpoint fetch_loop (fuel : nat) (get : server) (table_name : string)
    (limit : nat) (st : fetch_state) : option fetch_state :=
  match fuel with
  | O => None
  | S fuel' =>
      let start := page st * limit in
      let response := get table_name limit start in
      let asked := requested st ++ [start] in
      if (status_code response =? 200)%Z then
        let data := json response in
        match data with
        | [] => Some (mkFetch (all_data st) (page st) asked (fetch_shown st))
        | _ :: _ =>
            let st' := mkFetch (all_data st ++ data) (page st + 1) asked
                         (fetch_shown st) in
            if length data <? limit then Some st'
            else fetch_loop fuel' get table_name limit st'
        end
      else
        Some (mkFetch (all_data st) (page st) asked
                (fetch_shown st ++
                 [st_error (ErrorLoadingData table_name (status_code response))]))
  end.

Definition limit : nat := 1000.

Definition fetch (fuel : nat) (get : server) (table_name : string)
    : option fetch_state :=
  fetch_loop fuel get table_name limit (mkFetch [] 0 [] []).

(** ** Cleaning, [load_data] and the table selection *)

Definition date_cols : list string := ["start_time"; "bet_logged"; "created_at"].

Definition unique_cols : list string :=
  ["event"; "start_time"; "outcome"; "stake"; "odds"].

(** [all(col in df.columns for col in cols)] *)
Definition has_columns (cols : list string) (df : DataFrame) : bool :=
  forallb (λ col, bool_decide (col ∈ columns df)) cols.

Arguments has_columns : simpl never.

(** Lines 76-84 of [load_data]: the business key for ev_daily_bets, then
    the id. *)
Definition remove_duplicates (table_name : string) (df : DataFrame) : DataFrame :=
  let df :=
    if decide (table_name = "ev_daily_bets") then
      if has_columns unique_cols df then drop_duplicates unique_cols df else df
    else df in
  if decide ("id" ∈ columns df) then drop_duplicates ["id"] df else df.

(** [remove_duplicate_bets(df, table_name)] with what it shows. *)
Definition remove_duplicate_bets (df : DataFrame) (table_name : string)
    : DataFrame * list ui_event :=
  let original_count := len df in
  let df :=
    if decide (table_name = "ev_daily_bets") then
      if has_columns unique_cols df then drop_duplicates unique_cols df else df
    else df in
  (df, [st_sidebar_info (FilteredUnique (len df) (original_count - len df))]).

(** What a call of [load_data] leaves: the value returned, the messages
    shown and the offsets requested. *)
Record load_result := mkLoad {
  returned : option DataFrame;
  shown : list ui_event;
  offsets : list nat
}.

(** How the script leaves the table selection: [st.stop()] after an error,
    or [df] (and [df1], [df2], [df3] in All Tables mode). *)
Inductive selection :=
  | Stopped (ui : list ui_event)
  | Selected (df : DataFrame) (tables : option (DataFrame * DataFrame * DataFrame))
      (ui : list ui_event).

Section Pipeline.

(** [pd.to_datetime(series, errors='coerce', utc=True)]: the converted
    series, or [None] when the call raises. *)
Context (to_datetime : list value → option (list value)).

(** One turn of the loop over [date_cols] (lines 59-71). *)
Definition convert_date_col (table_name : string)
    (acc : DataFrame * list ui_event) (col : string) : DataFrame * list ui_event :=
  let '(df, ui) := acc in
  if decide (col ∈ columns df) then
    match to_datetime (series df col) with
    | Some converted =>
        let df := set_column df col converted in
        let null_count := null_count_of (series df col) in
        if 0 <? null_count
        then (df, ui ++ [st_sidebar_warning (ValuesNotConverted null_count col table_name)])
        else (df, ui)
    | None => (df, ui ++ [st_sidebar_error (ErrorConverting col table_name)])
    end
  else (df, ui).

Definition convert_dates (table_name : string) (df : DataFrame)
    : DataFrame * list ui_event :=
  foldl (convert_date_col table_name) (df, []) date_cols.

(** Lines 54-91: the frame built from a non-empty [all_data]. *)
Definition clean (table_name : string) (all_data : list record)
    : DataFrame * list ui_event :=
  let df := DataFrame_of_records all_data in
  let '(df, ui) := convert_dates table_name df in
  let original_count := len df in
  let df := remove_duplicates table_name df in
  let removed_count := original_count - len df in
  let ui :=
    if 0 <? removed_count
    then ui ++ [st_sidebar_warning (RemovedDuplicates removed_count table_name)]
    else ui in
  (df, ui ++ [st_sidebar_success (CleanedData (len df) table_name)]).

(** [load_data(table_name)]; [None] only when the loop outruns [fuel]. *)
Definition load_data (fuel : nat) (get : server) (table_name : string)
    : option load_result :=
  st ← fetch fuel get table_name;
  match all_data st with
  | [] => Some (mkLoad None (fetch_shown st) (requested st))
  | _ :: _ =>
      let '(df, ui) := clean table_name (all_data st) in
      Some (mkLoad (Some df) (fetch_shown st ++ ui) (requested st))
  end.

(** Lines 127-156: the tables loaded for [table_option]. *)
Definition select_data (fuel : nat) (get : server)
    (table_option duplicate_handling : string) : option selection :=
  if decide (table_option = "All Tables") then
    r1 ← load_data fuel get "betting_analytics";
    r2 ← load_data fuel get "ev_daily_bets";
    r3 ← load_data fuel get "matched_betting_bets";
    let ui := shown r1 ++ shown r2 ++ shown r3 in
    match returned r1, returned r2, returned r3 with
    | Some df1, Some df2, Some df3 =>
        let df1 := set_scalar df1 "data_source" (VStr "betting_analytics") in
        let df2 := set_scalar df2 "data_source" (VStr "ev_daily_bets") in
        let df3 := set_scalar df3 "data_source" (VStr "matched_betting_bets") in
        let '(df2, ui2) :=
          if decide (duplicate_handling = "Keep first occurrence only")
          then remove_duplicate_bets df2 "ev_daily_bets"
          else (df2, []) in
        let df_combined := pd_concat [df1; df2; df3] in
        Some (Selected df_combined (Some (df1, df2, df3)) (ui ++ ui2))
    | _, _, _ => Some (Stopped (ui ++ [st_error FailedToLoadTables]))
    end
  else
    r ← load_data fuel get table_option;
    match returned r with
    | None => Some (Stopped (shown r ++ [st_error (FailedToLoadTable table_option)]))
    | Some df =>
        let '(df, ui2) :=
          if decide (duplicate_handling = "Keep first occurrence only"
                     ∧ table_option = "ev_daily_bets")
          then remove_duplicate_bets df "ev_daily_bets"
          else (df, []) in
        Some (Selected df None (shown r ++ ui2))
    end.

End Pipeline.

(** ** The comparisons with the current moment *)

(** A [pd.Timestamp] used as the moment of comparison. *)
Record Timestamp := mkTimestamp {
  tz_aware : bool;
  nanos : Z
}.

(** [pd.Timestamp.now(tz='UTC')] when the clock reads [now]. *)
Definition Timestamp_now_utc (now : Z) : Timestamp := mkTimestamp true now.

(** [ts.tz_localize(None)]: the same wall clock without a timezone. *)
Definition tz_localize_None (ts : Timestamp) : Timestamp :=
  mkTimestamp false (nanos ts).

Definition aware_or_NaT (v : value) : bool :=
  match v with
  | VTimestamp true _ | VNaT => true
  | _ => false
  end.

Definition naive_or_NaT (v : value) : bool :=
  match v with
  | VTimestamp false _ | VNaT => true
  | _ => false
  end.

(** [pd.api.types.is_datetime64_any_dtype(series)]: a datetime64 column
    holds timestamps of one awareness and NaT, and the frames of this
    pipeline hold such cells only in a datetime64 column. *)
Definition is_datetime64_any_dtype (s : list value) : bool :=
  forallb aware_or_NaT s || forallb naive_or_NaT s.

(** [series.dt.tz is None], for a datetime64 series. *)
Definition dt_tz_is_None (s : list value) : bool :=
  negb (forallb aware_or_NaT s).

(** One cell against the moment [ts] under the order [op]: a missing cell
    compares false, a timestamp of the other awareness or another scalar
    raises [TypeError] ([None]). *)
Definition compare_cell (op : Z → Z → bool) (ts : Timestamp) (v : value)
    : option bool :=
  match v with
  | VNaT | VNull => Some false
  | VTimestamp aware t =>
      if decide (aware = tz_aware ts) then Some (op t (nanos ts)) else None
  | _ => None
  end.

(** [series > ts] and [series <= ts]. *)
Definition series_gt (s : list value) (ts : Timestamp) : option (list bool) :=
  mapM (compare_cell Z.gtb ts) s.

Definition series_le (s : list value) (ts : Timestamp) : option (list bool) :=
  mapM (compare_cell Z.leb ts) s.

(** Lines 170-190, the check in the sidebar: the future records found and
    the warning, or [None] when the comparison raises. *)
Definition future_date_check (df : DataFrame) (now : Z)
    : option (option DataFrame * list ui_event) :=
  let date_col_to_check :=
    if decide ("bet_logged" ∈ columns df) then "bet_logged"
    else if decide ("created_at" ∈ columns df) then "created_at"
    else "start_time" in
  if decide (date_col_to_check ∈ columns df) then
    let current_time := Timestamp_now_utc now in
    let current_time :=
      if is_datetime64_any_dtype (series df date_col_to_check) then
        if dt_tz_is_None (series df date_col_to_check)
        then tz_localize_None current_time
        else current_time
      else current_time in
    mask ← series_gt (series df date_col_to_check) current_time;
    let future_records := boolean_index df mask in
    if 0 <? len future_records
    then Some (Some future_records,
               [st_sidebar_warning (FoundFutureDates (len future_records) date_col_to_check)])
    else Some (Some future_records, [])
  else Some (None, []).

(** Lines 348-360: the date column of the cumulative profit chart. *)
Definition chart_date_col (table_option : string) (df : DataFrame) : string :=
  if decide (table_option = "matched_betting_bets"
             ∨ (table_option = "All Tables" ∧ "start_time" ∈ columns df))
  then "start_time"
  else if decide ("bet_logged" ∈ columns df) then "bet_logged"
  else if decide ("created_at" ∈ columns df) then "created_at"
  else "start_time".

(** Lines 343-376 and the warnings of the branches not taken: the frame
    [df_filtered] when the filter runs, or [None] when the comparison
    raises. *)
Definition cumulative_profit_filter (table_option : string) (df : DataFrame)
    (now : Z) : option (option DataFrame * list ui_event) :=
  if 0 <? len df then
    let current_time := Timestamp_now_utc now in
    let date_col := chart_date_col table_option df in
    if bool_decide (date_col ∈ columns df)
       && is_datetime64_any_dtype (series df date_col) then
      let comparison_time :=
        if dt_tz_is_None (series df date_col)
        then tz_localize_None current_time
        else current_time in
      mask ← series_le (series df date_col) comparison_time;
      let df_filtered := boolean_index df mask in
      let ui :=
        if len df_filtered <? len df
        then [st_info (FilteredOutFuture (len df - len df_filtered))]
        else [] in
      if 0 <? len df_filtered
      then Some (Some df_filtered, ui)
      else Some (Some df_filtered, ui ++ [st_warning NoDataAfterFiltering])
    else Some (None, [st_warning (DateColumnNotAvailable date_col)])
  else Some (None, [st_warning NoDataForCumulativeProfit]).

(** ** Pages answered by the store *)

(** The pages read from [pages]: those up to and including the first one
    shorter than [limit]. *)
Fixpoint pages_read (limit : nat) (pages : list (list record))
    : list (list record) :=
  match pages with
  | [] => []
  | p :: ps => if length p <? limit then [p] else p :: pages_read limit ps
  end.

(** The number of requests that reading [pages] takes: one per page read,
    and one more, answered by an empty array, when no page is short. *)
Fixpoint requests_for (limit : nat) (pages : list (list record)) : nat :=
  match pages with
  | [] => 1
  | p :: ps => if length p <? limit then 1 else S (requests_for limit ps)
  end.

(** No page before the last is shorter than [limit]. *)
Definition short_only_at_end (limit : nat) (pages : list (list record)) : Prop :=
  ∀ i p, pages !! i = Some p → S i < length pages → limit ≤ length p.

(** The rows of [df] have pairwise distinct tuples under [subset]. *)
Definition unique_on (subset : list string) (df : DataFrame) : Prop :=
  NoDup (row_key subset <$> rows df).

(** The two rules in the order the specification words them: the id
    first, then the business key. *)
Definition dedupe_id_then_business_key (df : DataFrame) : DataFrame :=
  drop_duplicates unique_cols (drop_duplicates ["id"] df).

(** ** Sample data *)

(** A logged bet; stakes and odds in hundredths. *)
Definition bet (id : Z) (event : string) (start_time : Z) (outcome : string)
    (stake odds : Z) (bookmaker : string) : record :=
  {[ "id" := VNum id; "event" := VStr event;
     "start_time" := VTimestamp true start_time; "outcome" := VStr outcome;
     "stake" := VNum stake; "odds" := VNum odds;
     "bookmaker" := VStr bookmaker ]}.

(** A row with a profit only. *)
Definition profit_row (i : nat) : record := {[ "profit" := VNum (Z.of_nat i) ]}.

(** [n] rows numbered from [start]. *)
Definition profit_page (start n : nat) : list record := profit_row <$> seq start n.

Definition two_short_pages : list (list record) :=
  [[profit_row 0]; [profit_row 1]].

Definition three_pages : list (list record) :=
  [profit_page 0 1000; profit_page 1000 1000; profit_page 2000 400].

(** Three bets of ev_daily_bets: the first two share an id, the last two a
    business key. *)
Definition overlapping_bets : DataFrame :=
  DataFrame_of_records
    [bet 1 "A vs B" 100 "A" 10000 200 "X";
     bet 1 "C vs D" 100 "C" 10000 200 "X";
     bet 2 "C vs D" 100 "C" 10000 200 "Y"].

(** The scenario of the specification: one bet logged at two bookmakers. *)
Definition same_bet_twice : DataFrame :=
  DataFrame_of_records
    [bet 1 "A vs B" 100 "A" 10000 200 "X";
     bet 2 "A vs B" 100 "A" 10000 200 "Y"].

(** One bet logged at three bookmakers. *)
Definition same_bet_thrice : DataFrame :=
  DataFrame_of_records
    [bet 1 "A vs B" 100 "A" 10000 200 "X";
     bet 2 "A vs B" 100 "A" 10000 200 "Y";
     bet 3 "A vs B" 100 "A" 10000 200 "Z"].

(** A store whose betting_analytics table serves one full page and then
    answers 500; the other tables hold one row. *)
Definition store_failing_on_second_page : server :=
  λ table_name,
    if decide (table_name = "betting_analytics")
    then failing_from 1 500 (pages_server [profit_page 0 1000]) table_name
    else pages_server [[profit_row 0]] table_name.

(** A store whose ev_daily_bets table answers 503 at once. *)
Definition store_with_outage : server :=
  λ table_name,
    if decide (table_name = "ev_daily_bets")
    then failing_from 0 503 (pages_server []) table_name
    else pages_server [[profit_row 0]] table_name.

(** A store with two rows, one bet logged twice, and one row. *)
Definition sample_store : server :=
  λ table_name,
    if decide (table_name = "betting_analytics")
    then pages_server [[profit_row 0; profit_row 1]] table_name
    else if decide (table_name = "ev_daily_bets")
    then pages_server [[bet 1 "A vs B" 100 "A" 10000 200 "X";
                        bet 2 "A vs B" 100 "A" 10000 200 "Y"]] table_name
    else pages_server [[profit_row 2]] table_name.

(** The number of rows of the frame selected. *)
Definition selected_len (o : option selection) : option nat :=
  sel ← o;
  match sel with
  | Selected df _ _ => Some (len df)
  | Stopped _ => None
  end.

(** A frame of matched bets: one past start time and one unparseable. *)
Definition past_and_NaT : DataFrame :=
  {| columns := {["start_time"; "profit"]};
     rows := [ {[ "start_time" := VTimestamp true 5; "profit" := VNum 3 ]};
               {[ "start_time" := VNaT; "profit" := VNum 4 ]} ] |}.

(** A conversion that never raises and parses nothing. *)
Definition all_NaT (vs : list value) : option (list value) :=
  Some ((λ _, VNaT) <$> vs).

(** A conversion that parses one spelling of one instant and no other
    text. *)
Definition parse_sample (v : value) : value :=
  match v with
  | VStr s =>
      if decide (s = "2024-01-01T00:00:00+00:00")
      then VTimestamp true 1704067200000000000
      else VNaT
  | VTimestamp _ t => VTimestamp true t
  | _ => VNaT
  end.

Definition sample_to_datetime (vs : list value) : option (list value) :=
  Some (parse_sample <$> vs).

(** Two rows with start times as text, the second not a date. *)
Definition raw_dates : list record :=
  [ {[ "start_time" := VStr "2024-01-01T00:00:00+00:00"; "profit" := VNum 5 ]};
    {[ "start_time" := VStr "tomorrow"; "profit" := VNum 7 ]} ].

(** The length of the frame a comparison left and what it showed. *)
Definition report_of (o : option (option DataFrame * list ui_event))
    : option (option nat * list ui_event) :=
  match o with
  | Some (out, ui) => Some (option_map len out, ui)
  | None => None
  end.

(** The start times loaded for matched_betting_bets from [raw_dates] and
    the filter of the cumulative profit chart on them at moment [now]. *)
Definition matched_bets_chart (now : Z)
    : option (list value * option (option nat * list ui_event)) :=
  match select_data sample_to_datetime 2 (pages_server [raw_dates])
          "matched_betting_bets" "Keep all bookmakers" with
  | Some (Selected df _ _) =>
      Some (series df "start_time",
            report_of (cumulative_profit_filter "matched_betting_bets" df now))
  | _ => None
  end.

(** ** Stores and projections for the further properties *)

(** A store that holds the rows of each table and answers a request with
    the rows from [offset] on, [limit] at most. *)
Definition table_server (tables : string → list record) : server :=
  λ table_name limit offset,
    {| status_code := 200; json := take limit (drop offset (tables table_name)) |}.

(** An answer after which the loop goes on: status 200 and a page of at
    least [limit] rows. *)
Definition full_page (limit : nat) (response : response) : Prop :=
  status_code response = 200%Z ∧ limit ≤ length (json response).

(** The rows that an answer contributes to [all_data]. *)
Definition rows_of (response : response) : list record :=
  if (status_code response =? 200)%Z then json response else [].

(** What [st.error] shows for an answer. *)
Definition error_of (table_name : string) (response : response) : list ui_event :=
  if (status_code response =? 200)%Z then []
  else [st_error (ErrorLoadingData table_name (status_code response))].

(** What the table selection loaded, without the messages. *)
Definition selected_frames (o : option selection)
    : option (option (DataFrame * option (DataFrame * DataFrame * DataFrame))) :=
  match o with
  | Some (Selected df tables _) => Some (Some (df, tables))
  | Some (Stopped _) => Some None
  | None => None
  end.

(** A store that answers every request with a page of [limit] empty
    rows. *)
Definition endless_store : server :=
  λ _ limit _, {| status_code := 200; json := replicate limit ∅ |}.

(** A store holding 2400 rows in every table. *)
Definition store_of_2400 : server := table_server (λ _, profit_page 0 2400).

(** What the conversion of the date column [col] of [df] shows. *)
Definition conversion_messages (to_datetime : list value → option (list value))
    (table_name : string) (df : DataFrame) (col : string) : list ui_event :=
  if decide (col ∈ columns df) then
    match to_datetime (series df col) with
    | Some converted =>
        if 0 <? null_count_of converted
        then [st_sidebar_warning
                (ValuesNotConverted (null_count_of converted) col table_name)]
        else []
    | None => [st_sidebar_error (ErrorConverting col table_name)]
    end
  else [].

(** What the deduplication of [load_data] shows for [removed_count]. *)
Definition removal_messages (table_name : string) (removed_count : nat)
    : list ui_event :=
  if 0 <? removed_count
  then [st_sidebar_warning (RemovedDuplicates removed_count table_name)]
  else [].

(** Lines 170-175: the date column of the check in the sidebar. *)
Definition date_col_to_check (df : DataFrame) : string :=
  if decide ("bet_logged" ∈ columns df) then "bet_logged"
  else if decide ("created_at" ∈ columns df) then "created_at"
  else "start_time".

(** A cell holds a timestamp that stands in the order [op] to [now]. *)
Definition timestamp_test (op : Z → Z → bool) (now : Z) (v : value) : bool :=
  match v with
  | VTimestamp _ t => op t now
  | _ => false
  end.

(** The rows of [df] whose cell under [col] passes the test. *)
Definition rows_where (op : Z → Z → bool) (now : Z) (col : string)
    (df : DataFrame) : DataFrame :=
  {| columns := columns df;
     rows := filter (λ r, timestamp_test op now (cell r col) = true) (rows df) |}.

(** A frame of one column of text under start_time. *)
Definition text_dates : DataFrame :=
  {| columns := {["start_time"]};
     rows := [ {[ "start_time" := VStr "tomorrow" ]} ] |}.

(** A frame with a naive start_time column. *)
Definition naive_dates : DataFrame :=
  {| columns := {["start_time"]};
     rows := [ {[ "start_time" := VTimestamp false 5 ]};
               {[ "start_time" := VTimestamp false 20 ]};
               {[ "start_time" := VNaT ]} ] |}.

(** * Properties *)

(** ** Pagination *)

Lemma fetch_loop_pages lim table (Hlim : 0 < lim) (rest : list (list record)) :
  ∀ pre fuel st,
    page st = length pre →
    length rest < fuel →
    ∃ pg,
      fetch_loop fuel (pages_server (pre ++ rest)) table lim st
      = Some (mkFetch (all_data st ++ mjoin (pages_read lim rest)) pg
                (requested st ++
                 ((λ i, i * lim) <$> seq (page st) (requests_for lim rest)))
                (fetch_shown st)).
Proof.
  induction rest as [|p rest IH]; intros pre fuel st Hpg Hfuel;
    (destruct fuel as [|fuel]; [simpl in Hfuel; lia|]); simpl fetch_loop;
    rewrite !Nat.div_mul by lia.
  - rewrite lookup_ge_None_2 by (rewrite length_app; simpl; lia).
    simpl. rewrite app_nil_r. by eexists.
  - rewrite Hpg, lookup_app_r, Nat.sub_diag by lia. simpl.
    destruct p as [|r p].
    + simpl. destruct lim; [lia|]. simpl. rewrite app_nil_r. by eexists.
    + destruct (length (r :: p) <? lim) eqn:Hshort.
      * simpl mjoin. rewrite app_nil_r. simpl. by eexists.
      * set (st' := mkFetch _ _ _ _).
        destruct (IH (pre ++ [r :: p]) fuel st') as [pg Hrun].
        { subst st'. simpl. rewrite length_app. simpl. lia. }
        { simpl in Hfuel. lia. }
        rewrite <- (assoc_L (++)) in Hrun. simpl in Hrun.
        exists pg. rewrite Hrun. subst st'. simpl.
        rewrite <- !(assoc_L (++)). simpl.
        by rewrite <- Hpg, Nat.add_1_r.
Qed.

Lemma pages_read_all lim (pages : list (list record)) :
  short_only_at_end lim pages → mjoin (pages_read lim pages) = mjoin pages.
Proof.
  induction pages as [|p ps IH]; intros Hend; [done|]. simpl.
  destruct (length p <? lim) eqn:Hshort; simpl.
  - destruct ps as [|q ps]; [done|].
    apply Nat.ltb_lt in Hshort.
    specialize (Hend 0 p eq_refl). simpl in Hend. lia.
  - f_equal. apply IH. intros i q Hq Hi.
    apply (Hend (S i) q); [done | simpl; lia].
Qed.


Lemma load_data_of_fetch to_datetime fuel get table_name st :
  fetch fuel get table_name = Some st →
  ∃ r, load_data to_datetime fuel get table_name = Some r
       ∧ offsets r = requested st
       ∧ (returned r = None ↔ all_data st = []).
Proof.
  intros Hst. unfold load_data. rewrite Hst. simpl.
  destruct (all_data st) as [|a rs]; [by eexists|].
  destruct (clean _ _ _) as [df ui]. by eexists.
Qed.

(** C1 (amended). For every table and every sequence of pages served, the
    loop of [load_data] ends within one iteration more than there are
    pages and [load_data] returns; the rows accumulated are the
    concatenation, in page order, of the pages up to and including the
    first one shorter than the limit, one request being made per page read
    (and one more, answered by an empty array, when no page is short).
    When no page before the last is short these are all the pages; for
    pages of sizes 1000, 1000, 400 the rows are 2400 and the requests are
    the three at offsets 0, 1000 and 2000. *)
Theorem load_data_pagination (to_datetime : list value → option (list value))
    (table_name : string) (pages : list (list record)) (fuel : nat) :
  length pages < fuel →
  ∃ st r,
    fetch fuel (pages_server pages) table_name = Some st
    ∧ load_data to_datetime fuel (pages_server pages) table_name = Some r
    ∧ offsets r = requested st
    ∧ all_data st = mjoin (pages_read limit pages)
    ∧ requested st = (λ i, i * limit) <$> seq 0 (requests_for limit pages)
    ∧ fetch_shown st = []
    ∧ (short_only_at_end limit pages → all_data st = mjoin pages)
    ∧ (length <$> pages = [1000; 1000; 400] →
       length (all_data st) = 2400 ∧ requested st = [0; 1000; 2000]).
Proof.
  intros Hfuel.
  destruct (fetch_loop_pages limit table_name ltac:(unfold limit; lia)
              pages [] fuel (mkFetch [] 0 [] []) eq_refl Hfuel) as [pg Hrun].
  simpl in Hrun.
  destruct (load_data_of_fetch to_datetime _ _ _ _ Hrun) as (r & Hr & Hoff & _).
  eexists; exists r. split; [exact Hrun|]. simpl.
  split; [exact Hr|]. split; [exact Hoff|]. split; [done|].
  split; [done|]. split; [done|].
  split; [apply pages_read_all|].
  intros Hsizes.
  destruct pages as [|p1 [|p2 [|p3 [|]]]]; try discriminate Hsizes.
  injection Hsizes as H1 H2 H3.
  unfold pages_read, requests_for. rewrite H1, H2, H3.
  change (1000 <? limit) with false. change (400 <? limit) with true.
  split; [|done].
  simpl. rewrite app_nil_r, !length_app, H1, H2, H3. done.
Qed.

(** The run of the specification's scenario on stored pages. *)
Lemma load_data_pagination_witness :
  ∃ st,
    fetch 4 (pages_server three_pages) "betting_analytics" = Some st
    ∧ length (all_data st) = 2400 ∧ requested st = [0; 1000; 2000].
Proof.
  destruct (load_data_pagination all_NaT "betting_analytics" three_pages 4)
    as (st & r & Hst & _ & _ & _ & _ & _ & _ & Hsizes).
  { simpl. lia. }
  exists st. split; [exact Hst|]. apply Hsizes. vm_compute. reflexivity.
Defined.

(** C1, as stated, fails: two pages of one row each are within the limit,
    yet the loop stops after the first, with one row and one request. *)
Lemma short_page_ends_pagination :
  Forall (λ p, length p ≤ limit) two_short_pages
  ∧ ∃ st,
      fetch 3 (pages_server two_short_pages) "betting_analytics" = Some st
      ∧ all_data st = [profit_row 0]
      ∧ requested st = [0]
      ∧ all_data st ≠ mjoin two_short_pages.
Proof.
  split; [repeat constructor; unfold limit; simpl; lia|].
  eexists. split; [vm_compute; reflexivity|]. simpl.
  split; [done|]. split; [done|]. discriminate.
Qed.

(** ** Dropping duplicates *)

Lemma keep_first_sublist subset (rs : list record) :
  ∀ seen, keep_first subset seen rs `sublist_of` rs.
Proof.
  induction rs as [|r rs IH]; intros seen; simpl; [constructor|].
  case_decide; [apply sublist_cons | apply sublist_skip]; apply IH.
Qed.

Lemma keep_first_fresh subset (rs : list record) :
  ∀ seen r, r ∈ keep_first subset seen rs → row_key subset r ∉ seen.
Proof.
  induction rs as [|a rs IH]; intros seen r; simpl; [by intros ?%elem_of_nil|].
  case_decide as Hseen; [apply IH|].
  intros [->|Hin]%elem_of_cons; [done|].
  apply IH in Hin. set_solver.
Qed.

Lemma keep_first_NoDup subset (rs : list record) :
  ∀ seen, NoDup (row_key subset <$> keep_first subset seen rs).
Proof.
  induction rs as [|a rs IH]; intros seen; simpl; [constructor|].
  case_decide; [apply IH|].
  rewrite fmap_cons. constructor; [|apply IH].
  intros (r & Hkey & Hin)%list_elem_of_fmap.
  apply keep_first_fresh in Hin. apply Hin. rewrite Hkey. by left.
Qed.

Lemma keep_first_unique subset (rs : list record) :
  ∀ seen,
    NoDup (row_key subset <$> rs) →
    (∀ r, r ∈ rs → row_key subset r ∉ seen) →
    keep_first subset seen rs = rs.
Proof.
  induction rs as [|a rs IH]; intros seen Hnd Hseen; simpl; [done|].
  rewrite fmap_cons in Hnd. apply NoDup_cons in Hnd as [Ha Hnd].
  rewrite decide_False by (apply Hseen; left).
  f_equal. apply IH; [done|].
  intros r Hr [Heq|Hin]%elem_of_cons.
  - apply Ha, list_elem_of_fmap. eauto.
  - by apply (Hseen r); [right|].
Qed.

(** The last row is kept exactly when its tuple is new. *)
Lemma keep_first_snoc subset (rs : list record) (r : record) :
  ∀ seen,
    keep_first subset seen (rs ++ [r])
    = keep_first subset seen rs ++
      (if decide (row_key subset r ∈ seen ++ (row_key subset <$> rs))
       then [] else [r]).
Proof.
  induction rs as [|a rs IH]; intros seen; simpl.
  - rewrite app_nil_r. by case_decide.
  - case_decide as Ha; rewrite IH; simpl.
    + apply (f_equal (app _)), decide_ext.
      rewrite !elem_of_app, elem_of_cons. intuition congruence.
    + f_equal. apply (f_equal (app _)), decide_ext.
      repeat (rewrite elem_of_app || rewrite elem_of_cons). intuition congruence.
Qed.

(** The rows kept under one tuple: none when the tuple was seen. *)
Lemma keep_first_seen subset (k : list value) (rs : list record) :
  ∀ seen, k ∈ seen →
    filter (λ r, row_key subset r = k) (keep_first subset seen rs) = [].
Proof.
  induction rs as [|a rs IH]; intros seen Hk; simpl; [done|].
  case_decide as Ha; [by apply IH|].
  rewrite filter_cons_False by (intros <-; done).
  apply IH. by right.
Qed.

(** The rows kept under one tuple: its first holder and no other. *)
Lemma keep_first_first subset (l1 l2 : list record) (r : record) :
  ∀ seen,
    row_key subset r ∉ seen →
    (∀ a, a ∈ l1 → row_key subset a ≠ row_key subset r) →
    filter (λ a, row_key subset a = row_key subset r)
      (keep_first subset seen (l1 ++ r :: l2)) = [r].
Proof.
  induction l1 as [|a l1 IH]; intros seen Hseen Hl1; simpl.
  - rewrite decide_False by done.
    rewrite filter_cons_True by done.
    f_equal. apply keep_first_seen. by left.
  - assert (row_key subset a ≠ row_key subset r) as Hne by (apply Hl1; left).
    case_decide as Ha.
    + apply IH; [done|]. intros b Hb. apply Hl1. by right.
    + rewrite filter_cons_False by done.
      apply IH; [|intros b Hb; apply Hl1; by right].
      rewrite elem_of_cons. intuition congruence.
Qed.

Lemma keep_first_nonempty subset (rs : list record) :
  rs ≠ [] → keep_first subset [] rs ≠ [].
Proof.
  destruct rs as [|r rs]; [done|]. intros _. unfold keep_first; fold keep_first.
  by rewrite decide_False by apply not_elem_of_nil.
Qed.

Lemma drop_duplicates_unique subset df : unique_on subset (drop_duplicates subset df).
Proof. apply keep_first_NoDup. Qed.

Lemma drop_duplicates_fixed subset df :
  unique_on subset df → drop_duplicates subset df = df.
Proof.
  intros Hu. destruct df as [cols rs]. unfold drop_duplicates. simpl. f_equal.
  apply keep_first_unique; [done|]. intros r _. apply not_elem_of_nil.
Qed.

Lemma drop_duplicates_keeps_unique subset subset' df :
  unique_on subset' df → unique_on subset' (drop_duplicates subset df).
Proof.
  unfold unique_on. intros Hu. eapply sublist_NoDup; [exact Hu|].
  apply fmap_sublist, keep_first_sublist.
Qed.

Lemma drop_duplicates_rows_nonempty subset df :
  rows df ≠ [] → rows (drop_duplicates subset df) ≠ [].
Proof. apply keep_first_nonempty. Qed.

(** What [remove_duplicates] leaves is unique on every key it applies. *)
Lemma remove_duplicates_unique_id table_name df :
  "id" ∈ columns df → unique_on ["id"] (remove_duplicates table_name df).
Proof.
  intros Hid. unfold remove_duplicates.
  repeat (case_decide || case_match); try done; apply drop_duplicates_unique.
Qed.

Lemma remove_duplicates_unique_business_key df :
  has_columns unique_cols df = true →
  unique_on unique_cols (remove_duplicates "ev_daily_bets" df).
Proof.
  intros Hcols. unfold remove_duplicates.
  destruct (decide ("ev_daily_bets" = "ev_daily_bets")) as [_|?]; [|done].
  rewrite Hcols.
  case_decide; [apply drop_duplicates_keeps_unique|]; apply drop_duplicates_unique.
Qed.

Lemma columns_remove_duplicates table_name df :
  columns (remove_duplicates table_name df) = columns df.
Proof. unfold remove_duplicates. by repeat (case_decide || case_match). Qed.

Lemma has_columns_same cols df df' :
  columns df' = columns df → has_columns cols df' = has_columns cols df.
Proof. unfold has_columns. by intros ->. Qed.

(** The cleaning of [load_data] leaves a frame that is already unique on
    the keys that apply to it. *)
Lemma remove_duplicates_unchanged table_name df :
  (table_name = "ev_daily_bets" → has_columns unique_cols df = true →
   unique_on unique_cols df) →
  ("id" ∈ columns df → unique_on ["id"] df) →
  remove_duplicates table_name df = df.
Proof.
  intros Hkey Hid. unfold remove_duplicates.
  assert ((if decide (table_name = "ev_daily_bets")
           then if has_columns unique_cols df
                then drop_duplicates unique_cols df else df
           else df) = df) as ->.
  { case_decide; [|done]. case_match; [|done].
    by apply drop_duplicates_fixed, Hkey. }
  case_decide; [|done]. by apply drop_duplicates_fixed, Hid.
Qed.

Lemma remove_duplicates_fixed table_name df :
  remove_duplicates table_name (remove_duplicates table_name df)
  = remove_duplicates table_name df.
Proof.
  apply remove_duplicates_unchanged.
  - intros -> Hcols.
    rewrite (has_columns_same _ df) in Hcols by apply columns_remove_duplicates.
    by apply remove_duplicates_unique_business_key.
  - rewrite columns_remove_duplicates. apply remove_duplicates_unique_id.
Qed.

Lemma remove_duplicate_bets_unchanged table_name df :
  (table_name = "ev_daily_bets" → has_columns unique_cols df = true →
   unique_on unique_cols df) →
  (remove_duplicate_bets df table_name).1 = df.
Proof.
  intros Hu. unfold remove_duplicate_bets. simpl.
  case_decide; [|done]. case_match; [|done].
  apply drop_duplicates_fixed. by apply Hu.
Qed.

(** C4. Deduplication is idempotent: dropping the duplicates of any key a
    second time, running the cleaning of [load_data] a second time, or
    running [remove_duplicate_bets] a second time leaves the frame of the
    first run. *)
Theorem dedupe_idempotent (table_name : string) (subset : list string)
    (df : DataFrame) :
  drop_duplicates subset (drop_duplicates subset df) = drop_duplicates subset df
  ∧ remove_duplicates table_name (remove_duplicates table_name df)
    = remove_duplicates table_name df
  ∧ (remove_duplicate_bets (remove_duplicate_bets df table_name).1 table_name).1
    = (remove_duplicate_bets df table_name).1.
Proof.
  split; [apply drop_duplicates_fixed, drop_duplicates_unique|].
  split; [apply remove_duplicates_fixed|].
  apply remove_duplicate_bets_unchanged. intros Htable.
  unfold remove_duplicate_bets. simpl.
  rewrite decide_True by done.
  destruct (has_columns unique_cols df) eqn:Hcols.
  - intros _. apply drop_duplicates_unique.
  - intros Hyes. congruence.
Qed.

(** ** The two keys of ev_daily_bets *)

(** C3 (amended). For a frame of ev_daily_bets with an id column and the
    five business-key columns, [load_data] applies the business key first
    and the id second.  The result is unique on both keys, and a row is
    dropped exactly when its business key repeats that of an earlier row
    or, failing that, its id repeats the id of an earlier row that the
    business-key rule kept. *)
Theorem remove_duplicates_business_key_then_id (df : DataFrame) :
  has_columns unique_cols df = true →
  "id" ∈ columns df →
  remove_duplicates "ev_daily_bets" df
  = drop_duplicates ["id"] (drop_duplicates unique_cols df)
  ∧ unique_on ["id"] (remove_duplicates "ev_daily_bets" df)
  ∧ unique_on unique_cols (remove_duplicates "ev_daily_bets" df)
  ∧ ∀ rs r,
      rows df = rs ++ [r] →
      rows (remove_duplicates "ev_daily_bets" df)
      = rows (remove_duplicates "ev_daily_bets" (mkDataFrame (columns df) rs))
        ++ (if decide (row_key unique_cols r ∈ row_key unique_cols <$> rs)
            then []
            else if decide (row_key ["id"] r
                            ∈ row_key ["id"] <$> keep_first unique_cols [] rs)
                 then [] else [r]).
Proof.
  intros Hcols Hid.
  assert (∀ rs, remove_duplicates "ev_daily_bets" (mkDataFrame (columns df) rs)
               = drop_duplicates ["id"]
                   (drop_duplicates unique_cols (mkDataFrame (columns df) rs)))
    as Heq.
  { intros rs. unfold remove_duplicates.
    destruct (decide ("ev_daily_bets" = "ev_daily_bets")) as [_|?]; [|done].
    rewrite (has_columns_same _ df), Hcols by done.
    by rewrite decide_True by done. }
  split; [by destruct df as [cols rs0]; apply Heq|].
  split; [by apply remove_duplicates_unique_id|].
  split; [by apply remove_duplicates_unique_business_key|].
  intros rs r Hrows.
  destruct df as [cols rs0]. simpl in *. subst rs0.
  rewrite !Heq. unfold drop_duplicates. simpl.
  rewrite keep_first_snoc. simpl.
  case_decide; [by rewrite !app_nil_r|].
  rewrite keep_first_snoc. reflexivity.
Qed.

Lemma remove_duplicates_business_key_then_id_witness :
  remove_duplicates "ev_daily_bets" overlapping_bets
  = drop_duplicates ["id"] (drop_duplicates unique_cols overlapping_bets).
Proof.
  apply (remove_duplicates_business_key_then_id overlapping_bets).
  - vm_compute. reflexivity.
  - vm_compute. reflexivity.
Defined.

(** C3, as stated, fails: on three bets where the first two share an id
    and the last two a business key, [load_data] keeps the first bet only,
    while the id rule followed by the business-key rule keeps two. *)
Lemma id_first_order_differs :
  has_columns unique_cols overlapping_bets = true
  ∧ "id" ∈ columns overlapping_bets
  ∧ len (remove_duplicates "ev_daily_bets" overlapping_bets) = 1
  ∧ len (dedupe_id_then_business_key overlapping_bets) = 2
  ∧ remove_duplicates "ev_daily_bets" overlapping_bets
    ≠ dedupe_id_then_business_key overlapping_bets.
Proof.
  split; [vm_compute; reflexivity|].
  split; [vm_compute; reflexivity|].
  split; [vm_compute; reflexivity|].
  split; [vm_compute; reflexivity|].
  intros Heq. apply (f_equal len) in Heq. vm_compute in Heq. discriminate.
Qed.

(** ** The business key across bookmakers *)

(** Among rows of which one holds the tuple [k], one holds it first. *)
Lemma first_holder subset (k : list value) (rs : list record) :
  k ∈ row_key subset <$> rs →
  ∃ l0 r0 rest,
    rs = l0 ++ r0 :: rest
    ∧ row_key subset r0 = k
    ∧ ∀ r, r ∈ l0 → row_key subset r ≠ k.
Proof.
  induction rs as [|a rs IH]; [by intros ?%elem_of_nil|].
  rewrite fmap_cons. intros Hin.
  destruct (decide (row_key subset a = k)) as [Ha|Ha].
  - exists [], a, rs. split; [done|]. split; [done|]. by intros r ?%elem_of_nil.
  - apply elem_of_cons in Hin as [Heq|Hin]; [congruence|].
    destruct (IH Hin) as (l0 & r0 & rest & -> & Hr0 & Hl0).
    exists (a :: l0), r0, rest. split; [done|]. split; [done|].
    intros r [->|Hr]%elem_of_cons; [done|]. by apply Hl0.
Qed.

(** C5 (amended). In a frame with the five business-key columns, let two
    rows share the tuple and differ in bookmaker.  Of all the rows with
    that tuple [remove_duplicate_bets] keeps exactly one, the first in the
    order of the frame; when no row before the earlier of the two has the
    tuple, that is the earlier of the two, and the later one is gone. *)
Theorem business_key_keeps_first (df : DataFrame) (l1 l2 l3 : list record)
    (r1 r2 : record) :
  has_columns unique_cols df = true →
  rows df = l1 ++ r1 :: l2 ++ r2 :: l3 →
  row_key unique_cols r1 = row_key unique_cols r2 →
  cell r1 "bookmaker" ≠ cell r2 "bookmaker" →
  ∃ l0 r0 rest,
    rows df = l0 ++ r0 :: rest
    ∧ row_key unique_cols r0 = row_key unique_cols r1
    ∧ (∀ r, r ∈ l0 → row_key unique_cols r ≠ row_key unique_cols r1)
    ∧ filter (λ r, row_key unique_cols r = row_key unique_cols r1)
        (rows (remove_duplicate_bets df "ev_daily_bets").1) = [r0]
    ∧ ((∀ r, r ∈ l1 → row_key unique_cols r ≠ row_key unique_cols r1) →
       r0 = r1
       ∧ r1 ∈ rows (remove_duplicate_bets df "ev_daily_bets").1
       ∧ r2 ∉ rows (remove_duplicate_bets df "ev_daily_bets").1).
Proof.
  intros Hcols Hrows Hkey Hbook.
  unfold remove_duplicate_bets. simpl.
  destruct (decide ("ev_daily_bets" = "ev_daily_bets")) as [_|?]; [|done].
  rewrite Hcols. unfold drop_duplicates. simpl.
  destruct (first_holder unique_cols (row_key unique_cols r1) (rows df))
    as (l0 & r0 & rest & Hsplit & Hr0 & Hl0).
  { rewrite Hrows, fmap_app, fmap_cons. apply elem_of_app. right. by left. }
  assert (filter (λ r, row_key unique_cols r = row_key unique_cols r1)
            (keep_first unique_cols [] (rows df)) = [r0]) as Hkept.
  { rewrite Hsplit, <- Hr0.
    apply keep_first_first; [apply not_elem_of_nil|].
    intros r Hr. rewrite Hr0. by apply Hl0. }
  exists l0, r0, rest.
  split; [done|]. split; [done|]. split; [done|]. split; [done|].
  intros Hfirst.
  assert (r0 = r1) as ->.
  { rewrite Hrows in Hkept.
    rewrite (keep_first_first unique_cols l1 (l2 ++ r2 :: l3) r1 []
               ltac:(apply not_elem_of_nil) Hfirst) in Hkept.
    by injection Hkept. }
  split; [done|].
  assert (∀ r, r ∈ keep_first unique_cols [] (rows df) →
               row_key unique_cols r = row_key unique_cols r1 → r = r1) as Honly.
  { intros r Hin Hr.
    assert (r ∈ [r1]) as ?%list_elem_of_singleton; [|done].
    rewrite <- Hkept. apply list_elem_of_filter. by split. }
  split.
  - assert (r1 ∈ [r1]) as Hin by (by apply list_elem_of_singleton).
    rewrite <- Hkept in Hin. by apply list_elem_of_filter in Hin as [_ ?].
  - intros Hin. apply Hbook. by rewrite (Honly r2 Hin).
Qed.

Lemma business_key_keeps_first_witness :
  rows (remove_duplicate_bets same_bet_twice "ev_daily_bets").1
  = [bet 1 "A vs B" 100 "A" 10000 200 "X"].
Proof.
  destruct (business_key_keeps_first same_bet_twice [] [] []
              (bet 1 "A vs B" 100 "A" 10000 200 "X")
              (bet 2 "A vs B" 100 "A" 10000 200 "Y"))
    as (l0 & r0 & rest & _ & _ & _ & Hkept & Hfirst).
  - vm_compute. reflexivity.
  - vm_compute. reflexivity.
  - vm_compute. reflexivity.
  - vm_compute. discriminate.
  - destruct Hfirst as (-> & _ & _).
    + intros r Hr. by apply elem_of_nil in Hr.
    + vm_compute in Hkept. vm_compute. exact Hkept.
Defined.

(** C5, as stated, fails: of one bet logged at the bookmakers X, Y and Z in
    this order, the rows of Y and Z share the tuple and differ in
    bookmaker, yet neither of the two is kept; the row of X is. *)
Lemma later_pair_both_dropped :
  has_columns unique_cols same_bet_thrice = true
  ∧ rows same_bet_thrice
    = [bet 1 "A vs B" 100 "A" 10000 200 "X"]
      ++ (bet 2 "A vs B" 100 "A" 10000 200 "Y"
          :: ([] ++ (bet 3 "A vs B" 100 "A" 10000 200 "Z" :: [])))
  ∧ row_key unique_cols (bet 2 "A vs B" 100 "A" 10000 200 "Y")
    = row_key unique_cols (bet 3 "A vs B" 100 "A" 10000 200 "Z")
  ∧ cell (bet 2 "A vs B" 100 "A" 10000 200 "Y") "bookmaker"
    ≠ cell (bet 3 "A vs B" 100 "A" 10000 200 "Z") "bookmaker"
  ∧ rows (remove_duplicate_bets same_bet_thrice "ev_daily_bets").1
    = [bet 1 "A vs B" 100 "A" 10000 200 "X"]
  ∧ (bet 2 "A vs B" 100 "A" 10000 200 "Y")
    ∉ rows (remove_duplicate_bets same_bet_thrice "ev_daily_bets").1
  ∧ (bet 3 "A vs B" 100 "A" 10000 200 "Z")
    ∉ rows (remove_duplicate_bets same_bet_thrice "ev_daily_bets").1.
Proof.
  assert (rows (remove_duplicate_bets same_bet_thrice "ev_daily_bets").1
          = [bet 1 "A vs B" 100 "A" 10000 200 "X"]) as Hkept
    by (vm_compute; reflexivity).
  split; [vm_compute; reflexivity|].
  split; [vm_compute; reflexivity|].
  split; [vm_compute; reflexivity|].
  split; [vm_compute; discriminate|].
  split; [exact Hkept|].
  rewrite Hkept.
  split; intros Hin%list_elem_of_singleton;
    apply (f_equal (λ r, cell r "bookmaker")) in Hin;
    vm_compute in Hin; discriminate.
Qed.

(** ** Cells of frames *)

Lemma cell_insert (r : record) col v col' :
  cell (<[col := v]> r) col' = if decide (col = col') then v else cell r col'.
Proof. unfold cell. rewrite lookup_insert. by case_decide. Qed.

Lemma cell_fill cols (r : record) col : cell (fill cols r) col = cell r col.
Proof.
  unfold cell, fill. rewrite lookup_union.
  destruct (r !! col) as [v|] eqn:Hr; simpl.
  - by destruct (gset_to_gmap VNull cols !! col).
  - rewrite lookup_gset_to_gmap. by case_guard.
Qed.

Lemma zip_insert_length (rs : list record) col :
  ∀ vs, length vs = length rs →
    length (zip_with (λ r v, <[col := v]> r) rs vs) = length rs.
Proof. intros vs Hlen. by rewrite length_zip_with_l_eq. Qed.

Lemma zip_insert_cells (rs : list record) col col' :
  ∀ vs, length vs = length rs →
    (λ r, cell r col') <$> zip_with (λ r v, <[col := v]> r) rs vs
    = if decide (col = col') then vs else (λ r, cell r col') <$> rs.
Proof.
  induction rs as [|r rs IH]; intros [|v vs] Hlen; simpl in *; try lia.
  - by case_decide.
  - rewrite cell_insert, IH by lia. by case_decide.
Qed.

Lemma len_set_column df col vs :
  length vs = len df → len (set_column df col vs) = len df.
Proof. apply zip_insert_length. Qed.

Lemma series_set_column df col vs col' :
  length vs = len df →
  series (set_column df col vs) col'
  = if decide (col = col') then vs else series df col'.
Proof. apply zip_insert_cells. Qed.

Lemma columns_set_column df col vs :
  col ∈ columns df → columns (set_column df col vs) = columns df.
Proof. intros Hin. simpl. apply leibniz_equiv. set_unfold. intros x. split; [intros [->|]|]; auto. Qed.

Lemma len_DataFrame_of_records all_data :
  len (DataFrame_of_records all_data) = length all_data.
Proof. unfold len. simpl. apply length_fmap. Qed.

Lemma remove_duplicates_rows_nonempty table_name df :
  rows df ≠ [] → rows (remove_duplicates table_name df) ≠ [].
Proof.
  intros Hne. unfold remove_duplicates.
  repeat (case_decide || case_match);
    repeat apply drop_duplicates_rows_nonempty; done.
Qed.

Lemma remove_duplicates_sublist table_name df :
  rows (remove_duplicates table_name df) `sublist_of` rows df.
Proof.
  unfold remove_duplicates.
  repeat (case_decide || case_match); simpl;
    repeat (etrans; [apply keep_first_sublist|]); done.
Qed.

Lemma date_cols_NoDup : NoDup date_cols.
Proof. unfold date_cols. repeat constructor; set_unfold; intuition discriminate. Qed.

(** ** The conversion of the date columns *)

Section Conversion.

Context (to_datetime : list value → option (list value)).

(** What [pd.to_datetime(..., errors='coerce', utc=True)] returns when it
    returns: a series as long as its argument, of timestamps in UTC and
    NaT. *)
Hypothesis to_datetime_length :
  ∀ vs ws, to_datetime vs = Some ws → length ws = length vs.
Hypothesis to_datetime_values :
  ∀ vs ws, to_datetime vs = Some ws → Forall (λ w, aware_or_NaT w = true) ws.

Lemma convert_date_cols_fold table_name (cols : list string) :
  NoDup cols →
  ∀ df ui,
    let out := foldl (convert_date_col to_datetime table_name) (df, ui) cols in
    columns out.1 = columns df
    ∧ len out.1 = len df
    ∧ (∀ col, series out.1 col
              = if decide (col ∈ cols ∧ col ∈ columns df)
                then default (series df col) (to_datetime (series df col))
                else series df col)
    ∧ (∀ e, e ∈ ui → e ∈ out.2)
    ∧ (∀ col, col ∈ cols → col ∈ columns df →
              to_datetime (series df col) = None →
              st_sidebar_error (ErrorConverting col table_name) ∈ out.2).
Proof using to_datetime_length.
  induction cols as [|c cols IH]; intros Hnd df ui; cbn [foldl fst snd].
  { repeat split; try done. by intros col ?%elem_of_nil. }
  apply NoDup_cons in Hnd as [Hc Hnd].
  destruct (convert_date_col to_datetime table_name (df, ui) c) as [df1 ui1] eqn:Hstep.
  assert (columns df1 = columns df ∧ len df1 = len df
          ∧ (∀ col, series df1 col
                    = if decide (c = col ∧ c ∈ columns df)
                      then default (series df c) (to_datetime (series df c))
                      else series df col)
          ∧ (∀ e, e ∈ ui → e ∈ ui1)
          ∧ (c ∈ columns df → to_datetime (series df c) = None →
             st_sidebar_error (ErrorConverting c table_name) ∈ ui1))
    as (Hcols1 & Hlen1 & Hser1 & Hui1 & Herr1).
  { unfold convert_date_col in Hstep.
    destruct (decide (c ∈ columns df)) as [Hin|Hout].
    - destruct (to_datetime (series df c)) as [ws|] eqn:Hconv.
      + assert (length ws = len df) as Hlen.
        { rewrite (to_datetime_length _ _ Hconv). apply length_fmap. }
        assert ((df1, ui1).1 = set_column df c ws) as Hdf1
          by (by rewrite <- Hstep; case_match).
        assert (∀ e, e ∈ ui → e ∈ (df1, ui1).2) as Hsub.
        { rewrite <- Hstep. case_match; simpl; [|done].
          intros e He. apply elem_of_app. by left. }
        simpl in Hdf1, Hsub. subst df1.
        split; [by apply columns_set_column|].
        split; [by apply len_set_column|].
        split; [|done].
        intros col. rewrite series_set_column by done.
        simpl.
        destruct (decide (c = col)) as [->|Hne].
        * by rewrite decide_True.
        * rewrite decide_False; [done|]. by intros [? _].
      + injection Hstep as <- <-.
        repeat split; try done.
        * intros col.
          case_decide as Hcase; [|done].
          by destruct Hcase as [<- _].
        * intros e He. apply elem_of_app. by left.
        * intros _ _. apply elem_of_app. right. by apply list_elem_of_singleton.
    - injection Hstep as <- <-.
      repeat split; try done.
      intros col. rewrite decide_False; [done|]. by intros [_ ?]. }
  destruct (IH Hnd df1 ui1) as (Hcols & Hlen & Hser & Hui & Herr).
  split; [congruence|]. split; [congruence|].
  split; [|split].
  - intros col. rewrite Hser, Hcols1, Hser1.
    destruct (decide (c = col)) as [<-|Hne].
    + rewrite (decide_False (P := c ∈ cols ∧ _)) by (by intros [? _]).
      apply decide_ext. rewrite elem_of_cons. intuition.
    + rewrite (decide_False (P := c = col ∧ _)) by (by intros [? _]).
      apply decide_ext. rewrite elem_of_cons. intuition congruence.
  - intros e He. by apply Hui, Hui1.
  - intros col [->|Hin]%elem_of_cons Hcol Hnone.
    + by apply Hui, Herr1.
    + apply Herr; [done|congruence|].
      rewrite Hser1. rewrite decide_False; [done|].
      intros [-> _]. done.
Qed.

Lemma len_clean table_name all_data :
  all_data ≠ [] → 0 < len (clean to_datetime table_name all_data).1.
Proof using to_datetime_length.
  intros Hne. unfold clean.
  destruct (convert_dates to_datetime table_name (DataFrame_of_records all_data))
    as [df ui] eqn:Hconv.
  simpl.
  pose proof (convert_date_cols_fold table_name date_cols date_cols_NoDup
                (DataFrame_of_records all_data) []) as (_ & Hlen & _).
  fold (convert_dates to_datetime table_name (DataFrame_of_records all_data)) in Hlen.
  rewrite Hconv, len_DataFrame_of_records in Hlen. simpl in Hlen.
  assert (rows (remove_duplicates table_name df) ≠ []) as Hrows.
  { apply remove_duplicates_rows_nonempty. intros Hnil.
    unfold len in Hlen. rewrite Hnil in Hlen. by destruct all_data. }
  unfold len. destruct (rows (remove_duplicates table_name df)); [done|]. simpl. lia.
Qed.

(** The two branches of lines 60-71 for one date column present in the
    frame: when the conversion call returns, the column holds only
    timezone-aware timestamps and NaT, also in the frame that [load_data]
    goes on to deduplicate; when it raises, the column is kept and an
    error is shown in the sidebar. *)
Lemma convert_dates_tried (table_name : string) (df : DataFrame)
    (col : string) :
  col ∈ date_cols →
  col ∈ columns df →
  ∃ out ui,
    convert_dates to_datetime table_name df = (out, ui)
    ∧ columns out = columns df
    ∧ len out = len df
    ∧ (is_Some (to_datetime (series df col)) →
       Forall (λ v, aware_or_NaT v = true) (series out col)
       ∧ ∀ r, r ∈ rows (remove_duplicates table_name out) →
              aware_or_NaT (cell r col) = true)
    ∧ (to_datetime (series df col) = None →
       series out col = series df col
       ∧ st_sidebar_error (ErrorConverting col table_name) ∈ ui).
Proof using to_datetime_length to_datetime_values.
  intros Hdate Hcol.
  pose proof (convert_date_cols_fold table_name date_cols date_cols_NoDup df [])
    as (Hcols & Hlen & Hser & _ & Herr).
  fold (convert_dates to_datetime table_name df) in Hcols, Hlen, Hser, Herr.
  destruct (convert_dates to_datetime table_name df) as [out ui]. simpl in *.
  exists out, ui. split; [done|]. split; [done|]. split; [done|].
  specialize (Hser col). rewrite decide_True in Hser by done.
  split.
  - intros [ws Hws]. rewrite Hws in Hser. simpl in Hser.
    assert (Forall (λ v, aware_or_NaT v = true) (series out col)) as Hall.
    { rewrite Hser. by eapply to_datetime_values. }
    split; [done|]. intros r Hr.
    rewrite Forall_forall in Hall. apply Hall.
    apply list_elem_of_fmap. exists r. split; [done|].
    eapply elem_of_sublist; [|apply remove_duplicates_sublist]. done.
  - intros Hnone. rewrite Hnone in Hser. split; [done|]. by apply Herr.
Qed.

(** C10. When the loop of [load_data] ends, [load_data] returns None
    exactly when no row was accumulated, and a frame it returns has at
    least one row.  An empty table and a table whose first request fails
    both give None. *)
Theorem load_data_None_iff_no_rows (fuel : nat) (get : server)
    (table_name : string) (code : Z) :
  (∀ st, fetch fuel get table_name = Some st →
     ∃ r, load_data to_datetime fuel get table_name = Some r
          ∧ (returned r = None ↔ all_data st = [])
          ∧ (∀ df, returned r = Some df → 0 < len df))
  ∧ returned <$> load_data to_datetime (S fuel) (pages_server []) table_name
    = Some None
  ∧ (code ≠ 200%Z →
     returned <$> load_data to_datetime (S fuel) (failing_from 0 code get) table_name
     = Some None).
Proof using to_datetime_length.
  split; [|split].
  - intros st Hst. unfold load_data. rewrite Hst. simpl.
    destruct (all_data st) as [|a rs] eqn:Hdata; [by eexists|].
    pose proof (len_clean table_name (a :: rs) ltac:(done)) as Hlen.
    destruct (clean _ _ _) as [df ui]. eexists. split; [done|]. simpl.
    split; [done|]. by intros ? [= <-].
  - reflexivity.
  - intros Hcode%Z.eqb_neq. unfold load_data, fetch. simpl.
    by rewrite Hcode.
Qed.

End Conversion.

Lemma sample_to_datetime_length vs ws :
  sample_to_datetime vs = Some ws → length ws = length vs.
Proof. intros [= <-]. apply length_fmap. Qed.

Lemma sample_to_datetime_values vs ws :
  sample_to_datetime vs = Some ws → Forall (λ w, aware_or_NaT w = true) ws.
Proof.
  intros [= <-]. apply Forall_fmap, Forall_true. intros v.
  destruct v; simpl; try done. by case_decide.
Qed.

(** An empty table and a failed first request, told apart by nothing in
    the value returned. *)
Lemma load_data_None_iff_no_rows_witness :
  returned <$> load_data sample_to_datetime 2 (pages_server []) "ev_daily_bets"
  = Some None
  ∧ returned <$> load_data sample_to_datetime 2
                   (failing_from 0 500 (pages_server [raw_dates])) "ev_daily_bets"
    = Some None.
Proof.
  destruct (load_data_None_iff_no_rows sample_to_datetime
              sample_to_datetime_length 1 (pages_server [raw_dates])
              "ev_daily_bets" 500) as (_ & Hempty & Hfailed).
  split; [exact Hempty|]. apply Hfailed. lia.
Defined.

(** ** A request that fails after a page was read *)

(** C2, on the code: after one full page, a 500 on the second request is
    reported by [st.error], yet [load_data] returns the 1000 rows read so
    far as a cleaned frame, and the All Tables load goes on with them. *)
Theorem partial_frame_after_failed_page (to_datetime : list value → option (list value)) :
  (λ r, (len <$> returned r, offsets r, shown r))
    <$> load_data to_datetime 2 store_failing_on_second_page "betting_analytics"
  = Some (Some 1000, [0; 1000],
          [st_error (ErrorLoadingData "betting_analytics" 500);
           st_sidebar_success (CleanedData 1000 "betting_analytics")])
  ∧ selected_len (select_data to_datetime 2 store_failing_on_second_page
                    "All Tables" "Keep all bookmakers") = Some 1002.
Proof. split; vm_compute; reflexivity. Qed.

(** ** The All Tables selection *)

Lemma len_set_scalar df col v : len (set_scalar df col v) = len df.
Proof. unfold len. simpl. apply length_fmap. Qed.

Lemma series_set_scalar df col v col' :
  series (set_scalar df col v) col'
  = if decide (col = col') then replicate (len df) v else series df col'.
Proof.
  unfold series, len. simpl.
  destruct (decide (col = col')) as [<-|Hne];
    induction (rows df) as [|r rs IH]; csimpl; try done;
    rewrite cell_insert, IH.
  - by rewrite decide_True.
  - by rewrite decide_False.
Qed.

Lemma has_columns_set_scalar cols df col v :
  col ∉ cols → has_columns cols (set_scalar df col v) = has_columns cols df.
Proof.
  unfold has_columns. simpl.
  induction cols as [|c cols IH]; intros Hcol; simpl; [done|].
  rewrite IH by (intros ?; apply Hcol; by right).
  f_equal. apply bool_decide_ext. set_unfold.
  split; [intros [->|?]; [|done] | by right].
  exfalso. apply Hcol. by left.
Qed.

Lemma row_key_insert subset (r : record) col v :
  col ∉ subset → row_key subset (<[col := v]> r) = row_key subset r.
Proof.
  intros Hcol. unfold row_key. apply list_fmap_ext. intros i c Hc.
  rewrite cell_insert, decide_False; [done|].
  intros ->. apply Hcol. by eapply list_elem_of_lookup_2.
Qed.

Lemma unique_on_set_scalar subset df col v :
  col ∉ subset → unique_on subset df → unique_on subset (set_scalar df col v).
Proof.
  intros Hcol. unfold unique_on. simpl. rewrite <- list_fmap_compose.
  intros Hu. erewrite list_fmap_ext; [exact Hu|]. intros i r _. simpl.
  by apply row_key_insert.
Qed.

Lemma series_pd_concat3 df1 df2 df3 col :
  series (pd_concat [df1; df2; df3]) col
  = series df1 col ++ series df2 col ++ series df3 col.
Proof.
  unfold series, pd_concat. simpl. rewrite <- list_fmap_compose.
  rewrite app_nil_r, <- !fmap_app.
  apply list_fmap_ext. intros i r _. simpl. apply cell_fill.
Qed.

Lemma len_pd_concat3 df1 df2 df3 :
  len (pd_concat [df1; df2; df3]) = len df1 + len df2 + len df3.
Proof.
  unfold len, pd_concat. simpl.
  rewrite length_fmap, app_nil_r, !length_app. lia.
Qed.

Lemma data_source_not_unique_col : "data_source" ∉ unique_cols.
Proof. unfold unique_cols. set_unfold. intuition discriminate. Qed.

Section Selection.

Context (to_datetime : list value → option (list value)).

(** What [load_data] returns for ev_daily_bets is unique on the business
    key whenever it has its columns. *)
Lemma load_data_unique_business_key fuel get r df :
  load_data to_datetime fuel get "ev_daily_bets" = Some r →
  returned r = Some df →
  has_columns unique_cols df = true →
  unique_on unique_cols df.
Proof.
  unfold load_data. destruct (fetch fuel get "ev_daily_bets") as [st|]; [|done].
  simpl. destruct (all_data st) as [|a rs].
  { by intros [= <-]. }
  unfold clean.
  destruct (convert_dates _ _ _) as [df0 ui0].
  intros [= <-]. simpl. intros [= <-] Hcols.
  rewrite (has_columns_same _ df0) in Hcols by apply columns_remove_duplicates.
  by apply remove_duplicates_unique_business_key.
Qed.

(** C6. When [load_data] returns a frame for each of the three tables, the
    All Tables selection tags the rows of each with its table name as
    data_source and concatenates them in the order betting_analytics,
    ev_daily_bets, matched_betting_bets, whichever duplicate handling is
    chosen: every column of the combined frame is the three tagged
    columns one after the other, and its length is the sum of the three
    lengths. *)
Theorem all_tables_concatenates (fuel : nat) (get : server)
    (duplicate_handling : string) (r1 r2 r3 : load_result)
    (f1 f2 f3 : DataFrame) :
  load_data to_datetime fuel get "betting_analytics" = Some r1 →
  load_data to_datetime fuel get "ev_daily_bets" = Some r2 →
  load_data to_datetime fuel get "matched_betting_bets" = Some r3 →
  returned r1 = Some f1 →
  returned r2 = Some f2 →
  returned r3 = Some f3 →
  let df1 := set_scalar f1 "data_source" (VStr "betting_analytics") in
  let df2 := set_scalar f2 "data_source" (VStr "ev_daily_bets") in
  let df3 := set_scalar f3 "data_source" (VStr "matched_betting_bets") in
  ∃ df ui,
    select_data to_datetime fuel get "All Tables" duplicate_handling
    = Some (Selected df (Some (df1, df2, df3)) ui)
    ∧ df = pd_concat [df1; df2; df3]
    ∧ (∀ col, series df col = series df1 col ++ series df2 col ++ series df3 col)
    ∧ series df "data_source"
      = replicate (len f1) (VStr "betting_analytics")
        ++ replicate (len f2) (VStr "ev_daily_bets")
        ++ replicate (len f3) (VStr "matched_betting_bets")
    ∧ len df = len f1 + len f2 + len f3.
Proof.
  intros H1 H2 H3 Hf1 Hf2 Hf3 df1 df2 df3.
  assert ((remove_duplicate_bets df2 "ev_daily_bets").1 = df2) as Hsame.
  { apply remove_duplicate_bets_unchanged. intros _ Hcols.
    subst df2. apply unique_on_set_scalar; [apply data_source_not_unique_col|].
    rewrite has_columns_set_scalar in Hcols by apply data_source_not_unique_col.
    by eapply load_data_unique_business_key. }
  unfold select_data.
  destruct (decide ("All Tables" = "All Tables")) as [_|?]; [|done].
  rewrite H1, H2, H3. simpl. rewrite Hf1, Hf2, Hf3.
  fold df1 df2 df3.
  assert (∃ ui2,
    (if decide (duplicate_handling = "Keep first occurrence only")
     then remove_duplicate_bets df2 "ev_daily_bets" else (df2, [])) = (df2, ui2))
    as [ui2 ->].
  { case_decide; [|by eexists].
    destruct (remove_duplicate_bets df2 "ev_daily_bets") as [d u] eqn:Hrun.
    simpl in Hsame. subst d. by eexists. }
  eexists; eexists. split; [reflexivity|]. split; [reflexivity|].
  split; [apply series_pd_concat3|].
  split.
  - rewrite series_pd_concat3. subst df1 df2 df3.
    rewrite !series_set_scalar. by rewrite !decide_True by done.
  - rewrite len_pd_concat3. subst df1 df2 df3. by rewrite !len_set_scalar.
Qed.

(** C7. In All Tables mode, when [load_data] returns None for any of the
    three tables the script shows an error and stops, and a combined
    frame is selected only when all three calls returned a frame. *)
Theorem all_tables_all_or_nothing (fuel : nat) (get : server)
    (duplicate_handling : string) (r1 r2 r3 : load_result) :
  load_data to_datetime fuel get "betting_analytics" = Some r1 →
  load_data to_datetime fuel get "ev_daily_bets" = Some r2 →
  load_data to_datetime fuel get "matched_betting_bets" = Some r3 →
  (returned r1 = None ∨ returned r2 = None ∨ returned r3 = None →
   select_data to_datetime fuel get "All Tables" duplicate_handling
   = Some (Stopped ((shown r1 ++ shown r2 ++ shown r3)
                    ++ [st_error FailedToLoadTables])))
  ∧ (∀ df tables ui,
       select_data to_datetime fuel get "All Tables" duplicate_handling
       = Some (Selected df tables ui) →
       is_Some (returned r1) ∧ is_Some (returned r2) ∧ is_Some (returned r3)).
Proof.
  intros H1 H2 H3. unfold select_data.
  destruct (decide ("All Tables" = "All Tables")) as [_|?]; [|done].
  rewrite H1, H2, H3. simpl.
  destruct (returned r1) as [f1|], (returned r2) as [f2|],
    (returned r3) as [f3|]; simpl;
    (split; [intros [?|[?|?]]; done | intros df tables ui Hsel]);
    try discriminate Hsel; eauto.
Qed.

End Selection.

Lemma all_tables_concatenates_witness :
  selected_len (select_data sample_to_datetime 2 sample_store "All Tables"
                  "Keep first occurrence only") = Some 4.
Proof.
  edestruct (all_tables_concatenates sample_to_datetime 2 sample_store
               "Keep first occurrence only")
    as (df & ui & Hsel & _ & _ & _ & Hlen).
  - vm_compute. reflexivity.
  - vm_compute. reflexivity.
  - vm_compute. reflexivity.
  - reflexivity.
  - reflexivity.
  - reflexivity.
  - rewrite Hsel. simpl. f_equal. rewrite Hlen. vm_compute. reflexivity.
Defined.

Lemma all_tables_all_or_nothing_witness :
  select_data sample_to_datetime 2 store_with_outage "All Tables"
    "Keep all bookmakers"
  = Some (Stopped [st_sidebar_success (CleanedData 1 "betting_analytics");
                   st_error (ErrorLoadingData "ev_daily_bets" 503);
                   st_sidebar_success (CleanedData 1 "matched_betting_bets");
                   st_error FailedToLoadTables]).
Proof.
  edestruct (all_tables_all_or_nothing sample_to_datetime 2 store_with_outage
               "Keep all bookmakers") as [Hstop _].
  - vm_compute. reflexivity.
  - vm_compute. reflexivity.
  - vm_compute. reflexivity.
  - rewrite Hstop; [reflexivity|]. right. left. reflexivity.
Defined.

(** ** The comparisons with the current moment *)

Lemma compare_cell_matching op (s : list value) ts :
  (tz_aware ts = true ∧ forallb aware_or_NaT s = true)
  ∨ (tz_aware ts = false ∧ forallb naive_or_NaT s = true) →
  is_Some (mapM (compare_cell op ts) s).
Proof.
  intros Hmatch. apply mapM_is_Some, Forall_forall. intros v Hv.
  assert (aware_or_NaT v = true ∧ tz_aware ts = true
          ∨ naive_or_NaT v = true ∧ tz_aware ts = false) as Hcell.
  { destruct Hmatch as [[Hts Hall]|[Hts Hall]];
      rewrite forallb_forall in Hall; [left|right];
      (split; [apply Hall; by apply list_elem_of_In|done]). }
  destruct ts as [aw t]. simpl in *.
  destruct v as [| | | |a t'|]; simpl in *; try by eauto.
  all: destruct Hcell as [[Hv' ->]|[Hv' ->]]; try discriminate.
  all: destruct a; try discriminate; by rewrite decide_True.
Qed.

(** The filter of the cumulative profit chart never raises: under its
    guard the moment has the awareness of the column. *)
Lemma cumulative_profit_filter_returns table_option df now :
  is_Some (cumulative_profit_filter table_option df now).
Proof.
  unfold cumulative_profit_filter.
  destruct (0 <? len df); [|by eexists].
  destruct (bool_decide _ && is_datetime64_any_dtype _) eqn:Hguard; [|by eexists].
  apply andb_prop in Hguard as [_ Hdt].
  unfold is_datetime64_any_dtype, dt_tz_is_None in *.
  set (s := series df (chart_date_col table_option df)) in *.
  destruct (compare_cell_matching Z.leb s
              (if negb (forallb aware_or_NaT s)
               then tz_localize_None (Timestamp_now_utc now)
               else Timestamp_now_utc now)) as [mask Hmask].
  { destruct (forallb aware_or_NaT s); simpl in *; [by left|by right]. }
  unfold series_le. rewrite Hmask. simpl.
  destruct (0 <? _); by eexists.
Qed.

(** The rows it keeps are those holding a timestamp not after the moment;
    a row holding NaT is not kept. *)
Lemma series_le_keeps (s : list value) ts mask :
  series_le s ts = Some mask →
  Forall2 (λ v b, b = true ↔ ∃ aware t, v = VTimestamp aware t ∧ (t ≤ nanos ts)%Z)
    s mask.
Proof.
  unfold series_le. intros Hmask%mapM_Some.
  eapply Forall2_impl; [exact Hmask|]. intros v b Hcell. simpl in Hcell.
  destruct v as [| | | |a t|]; simpl in Hcell; try discriminate.
  - injection Hcell as <-. split; [done|]. by intros (? & ? & ? & _).
  - case_decide; [|done]. injection Hcell as <-.
    rewrite Z.leb_le. split; [eauto|]. by intros (? & ? & [= _ <-] & ?).
  - injection Hcell as <-. split; [done|]. by intros (? & ? & ? & _).
Qed.

(** C9, on the code: of a past start time and an unparseable one, read at
    moment 10, the sidebar check finds no future record, while the filter
    of the cumulative profit chart also drops the row holding NaT and
    reports it as one future record filtered out.  The same happens to
    the frame that the script loads for matched_betting_bets from two rows
    of which one start time does not parse. *)
Theorem NaT_row_filtered_as_future :
  future_date_check past_and_NaT 10
  = Some (Some (boolean_index past_and_NaT [false; false]), [])
  ∧ cumulative_profit_filter "matched_betting_bets" past_and_NaT 10
    = Some (Some (boolean_index past_and_NaT [true; false]),
            [st_info (FilteredOutFuture 1)])
  ∧ matched_bets_chart 1800000000000000000
    = Some ([VTimestamp true 1704067200000000000; VNaT],
            Some (Some 1, [st_info (FilteredOutFuture 1)])).
Proof. repeat split; vm_compute; reflexivity. Qed.

(** * Further properties of the code *)

(** ** The loop of [load_data] against any store *)

Lemma full_page_dec lim (response : response) :
  full_page lim response
  ∨ (status_code response ≠ 200%Z
     ∨ status_code response = 200%Z ∧ length (json response) < lim).
Proof.
  unfold full_page.
  destruct (decide (status_code response = 200%Z)); [|by right; left].
  destruct (decide (lim ≤ length (json response))); [by left|].
  right. right. split; [done|lia].
Qed.

(** One run of the loop from state [st]: the requests it adds, the answers
    it went on after, and what the last answer left. *)
Lemma fetch_loop_trace lim (Hlim : 0 < lim) (get : server) table_name :
  ∀ fuel st st',
    fetch_loop fuel get table_name lim st = Some st' →
    ∃ m,
      S m ≤ fuel
      ∧ requested st' = requested st ++ ((λ i, i * lim) <$> seq (page st) (S m))
      ∧ (∀ i, i < m → full_page lim (get table_name lim ((page st + i) * lim)))
      ∧ ¬ full_page lim (get table_name lim ((page st + m) * lim))
      ∧ all_data st'
        = all_data st
          ++ mjoin ((λ i, json (get table_name lim (i * lim))) <$> seq (page st) m)
          ++ rows_of (get table_name lim ((page st + m) * lim))
      ∧ fetch_shown st'
        = fetch_shown st ++ error_of table_name (get table_name lim ((page st + m) * lim)).
Proof.
  induction fuel as [|fuel IH]; intros st st' Hrun; [discriminate|].
  simpl in Hrun.
  set (response := get table_name lim (page st * lim)) in *.
  assert (∀ P, P (get table_name lim ((page st + 0) * lim)) ↔ P response) as Hzero.
  { intros P. by rewrite Nat.add_0_r. }
  destruct (status_code response =? 200)%Z eqn:Hstatus.
  - apply Z.eqb_eq in Hstatus as Hok.
    destruct (json response) as [|r data] eqn:Hdata.
    + injection Hrun as <-. exists 0. simpl.
      split; [lia|]. split; [done|]. split; [intros; lia|].
      rewrite !Nat.add_0_r. fold response.
      unfold full_page, rows_of, error_of. rewrite Hstatus, Hdata. simpl.
      rewrite !app_nil_r. repeat split; try done. intros [_ ?]. lia.
    + destruct (length (r :: data) <? lim) eqn:Hshort.
      * injection Hrun as <-. exists 0. simpl.
        apply Nat.ltb_lt in Hshort. simpl in Hshort.
        split; [lia|]. split; [done|]. split; [intros; lia|].
        rewrite !Nat.add_0_r. fold response.
        unfold full_page, rows_of, error_of. rewrite Hstatus, Hdata. simpl.
        rewrite !app_nil_r. repeat split; try done. intros [_ ?]. lia.
      * apply Nat.ltb_ge in Hshort.
        apply IH in Hrun as (m & Hfuel & Hreq & Hfull & Hlast & Hall & Hshown).
        cbn [all_data page requested fetch_shown] in *. exists (S m).
        replace (page st + 1 + m) with (page st + S m) in * by lia.
        replace (page st + 1) with (S (page st)) in * by lia.
        change (seq (page st) (S (S m))) with (page st :: seq (S (page st)) (S m)).
        change (seq (page st) (S m)) with (page st :: seq (S (page st)) m).
        rewrite !fmap_cons.
        split; [lia|]. split; [|split; [|split; [done|split]]].
        -- by rewrite Hreq, <- (assoc_L (++)).
        -- intros [|i] Hi.
           ++ rewrite Nat.add_0_r. fold response.
              split; [done|]. by rewrite Hdata.
           ++ replace (page st + S i) with (S (page st) + i) by lia.
              apply Hfull. lia.
        -- rewrite Hall, <- !(assoc_L (++)). fold response. rewrite Hdata.
           f_equal. apply (assoc_L (++)).
        -- done.
  - injection Hrun as <-. exists 0. simpl.
    split; [lia|]. split; [done|]. split; [intros; lia|].
    rewrite !Nat.add_0_r. fold response.
    unfold full_page, rows_of, error_of. rewrite Hstatus. simpl.
    rewrite !app_nil_r. repeat split; try done.
    intros [Hok _]. apply Z.eqb_neq in Hstatus. done.
Qed.

(** X1. Against any store, when the loop of [load_data] ends it has made
    at least one request and at most [fuel], at the offsets 0, 1000, 2000,
    ... in this order; every answer but the last had status 200 and a page
    of at least 1000 rows, and the last answer had not. *)
Theorem fetch_requests (fuel : nat) (get : server) (table_name : string)
    (st : fetch_state) :
  fetch fuel get table_name = Some st →
  ∃ m,
    S m ≤ fuel
    ∧ requested st = (λ i, i * limit) <$> seq 0 (S m)
    ∧ (∀ i, i < m → full_page limit (get table_name limit (i * limit)))
    ∧ ¬ full_page limit (get table_name limit (m * limit)).
Proof.
  intros Hrun.
  apply (fetch_loop_trace limit ltac:(unfold limit; lia)) in Hrun
    as (m & Hfuel & Hreq & Hfull & Hlast & _).
  exists m. cbn [all_data page requested fetch_shown app Nat.add] in *. eauto.
Qed.

(** X2. Against any store, the rows accumulated are the pages of the
    answers in the order of the requests, the last answer contributing its
    page only if its status is 200; [st.error] is shown once, for the last
    answer, exactly when its status is not 200. *)
Theorem fetch_accumulates (fuel : nat) (get : server) (table_name : string)
    (st : fetch_state) :
  fetch fuel get table_name = Some st →
  ∃ m,
    length (requested st) = S m
    ∧ all_data st
      = mjoin ((λ i, json (get table_name limit (i * limit))) <$> seq 0 m)
        ++ rows_of (get table_name limit (m * limit))
    ∧ fetch_shown st = error_of table_name (get table_name limit (m * limit)).
Proof.
  intros Hrun.
  apply (fetch_loop_trace limit ltac:(unfold limit; lia)) in Hrun
    as (m & _ & Hreq & _ & _ & Hall & Hshown).
  exists m. cbn [all_data page requested fetch_shown app Nat.add] in *.
  split; [by rewrite Hreq, length_fmap, length_seq|]. eauto.
Qed.

Lemma fetch_requests_witness :
  ∃ m, S m ≤ 3
       ∧ ¬ full_page limit
             (pages_server two_short_pages "betting_analytics" limit (m * limit)).
Proof.
  edestruct (fetch_requests 3 (pages_server two_short_pages) "betting_analytics")
    as (m & Hfuel & _ & _ & Hlast).
  - vm_compute. reflexivity.
  - exists m. split; [exact Hfuel|exact Hlast].
Defined.

Lemma fetch_accumulates_witness :
  ∃ st m,
    fetch 2 store_with_outage "ev_daily_bets" = Some st
    ∧ length (requested st) = S m
    ∧ fetch_shown st
      = error_of "ev_daily_bets"
          (store_with_outage "ev_daily_bets" limit (m * limit)).
Proof.
  edestruct (fetch_accumulates 2 store_with_outage "ev_daily_bets")
    as (m & Hlen & _ & Hshown).
  - vm_compute. reflexivity.
  - eexists; exists m. split; [reflexivity|]. split; [exact Hlen|exact Hshown].
Defined.

Lemma fetch_loop_ends lim (get : server) table_name :
  ∀ n fuel st,
    ¬ full_page lim (get table_name lim ((page st + n) * lim)) →
    n < fuel →
    is_Some (fetch_loop fuel get table_name lim st).
Proof.
  induction n as [|n IH]; intros fuel st Hlast Hfuel;
    (destruct fuel as [|fuel]; [lia|]); simpl;
    set (response := get table_name lim (page st * lim)) in *;
    destruct (status_code response =? 200)%Z eqn:Hstatus; try by eexists.
  - destruct (json response) as [|r data] eqn:Hdata; [by eexists|].
    destruct (length (r :: data) <? lim) eqn:Hshort; [by eexists|].
    exfalso. apply Hlast. rewrite Nat.add_0_r. fold response.
    apply Z.eqb_eq in Hstatus. apply Nat.ltb_ge in Hshort.
    split; [done|]. by rewrite Hdata.
  - destruct (json response) as [|r data] eqn:Hdata; [by eexists|].
    destruct (length (r :: data) <? lim) eqn:Hshort; [by eexists|].
    apply IH; [|lia]. cbn [page].
    by replace (page st + 1 + n) with (page st + S n) by lia.
Qed.

Lemma fetch_loop_endless lim (Hlim : 0 < lim) (get : server) table_name :
  (∀ n, full_page lim (get table_name lim (n * lim))) →
  ∀ fuel st, fetch_loop fuel get table_name lim st = None.
Proof.
  intros Hfull. induction fuel as [|fuel IH]; intros st; [done|]. simpl.
  destruct (Hfull (page st)) as [Hok Hlen].
  apply Z.eqb_eq in Hok as ->.
  destruct (json (get table_name lim (page st * lim))) as [|r data];
    [simpl in Hlen; lia|].
  apply Nat.ltb_ge in Hlen as ->. apply IH.
Qed.

(** X3. The loop of [load_data] ends as soon as an answer is not a full
    page with status 200: if the answer at page [n] is such, [n + 1]
    iterations suffice.  It has no other bound: against a store whose
    every answer is a full page with status 200 it never ends. *)
Theorem fetch_ends (get : server) (table_name : string) :
  (∀ n, ¬ full_page limit (get table_name limit (n * limit)) →
        is_Some (fetch (S n) get table_name))
  ∧ ((∀ n, full_page limit (get table_name limit (n * limit))) →
     ∀ fuel, fetch fuel get table_name = None).
Proof.
  split.
  - intros n Hlast. apply (fetch_loop_ends limit get table_name n); [done|lia].
  - intros Hfull fuel.
    by apply fetch_loop_endless; [unfold limit; lia|].
Qed.

Lemma fetch_ends_witness :
  is_Some (fetch 1 (pages_server two_short_pages) "betting_analytics")
  ∧ fetch 5 endless_store "betting_analytics" = None.
Proof.
  split.
  - apply (fetch_ends (pages_server two_short_pages) "betting_analytics").
    intros [_ Hlen]. vm_compute in Hlen. lia.
  - apply (fetch_ends endless_store "betting_analytics").
    intros n. split; [reflexivity|].
    unfold endless_store. cbn [json]. by rewrite length_replicate.
Defined.

(** ** The loop against a store of rows *)

Lemma fetch_loop_table lim (Hlim : 0 < lim) (tables : string → list record)
    table_name :
  ∀ fuel st,
    all_data st = take (page st * lim) (tables table_name) →
    page st * lim ≤ length (tables table_name) →
    length (tables table_name) - page st * lim < fuel * lim →
    ∃ st' n,
      fetch_loop fuel (table_server tables) table_name lim st = Some st'
      ∧ all_data st' = tables table_name
      ∧ requested st' = requested st ++ ((λ i, i * lim) <$> seq (page st) (S n))
      ∧ (page st + n) * lim ≤ length (tables table_name)
      ∧ length (tables table_name) < (page st + S n) * lim
      ∧ fetch_shown st' = fetch_shown st.
Proof.
  set (tbl := tables table_name).
  induction fuel as [|fuel IH]; intros st Hall Hpage Hfuel; [simpl in Hfuel; lia|].
  simpl fetch_loop. fold tbl.
  set (rest := drop (page st * lim) tbl).
  assert (length rest = length tbl - page st * lim) as Hrest
    by apply length_drop.
  assert (take (page st * lim) tbl ++ rest = tbl) as Hsplit
    by apply take_drop.
  destruct (take lim rest) as [|r data] eqn:Hdata.
  - assert (rest = []) as Hnil.
    { destruct rest; [done|]. destruct lim; [lia|]. discriminate. }
    eexists; exists 0. split; [reflexivity|]. cbn [all_data requested fetch_shown].
    rewrite Hnil in Hrest, Hsplit. simpl in Hrest.
    rewrite app_nil_r in Hsplit.
    split; [congruence|]. split; [done|].
    rewrite Nat.add_0_r. split; [done|]. split; [|done].
    rewrite Nat.mul_add_distr_r. lia.
  - assert (length (r :: data) = length rest `min` lim) as Hlen.
    { rewrite <- Hdata, length_take. lia. }
    destruct (length (r :: data) <? lim) eqn:Hshort.
    + apply Nat.ltb_lt in Hshort.
      assert (r :: data = rest) as Hwhole.
      { rewrite <- Hdata. apply take_ge. lia. }
      eexists; exists 0. split; [reflexivity|]. cbn [all_data requested fetch_shown].
      split; [by rewrite Hall, Hwhole|]. split; [done|].
      rewrite Nat.add_0_r. split; [done|]. split; [|done].
      rewrite Nat.mul_add_distr_r. lia.
    + apply Nat.ltb_ge in Hshort.
      set (st1 := mkFetch _ _ _ _).
      destruct (IH st1) as (st' & n & Hrun & Hall' & Hreq & Hlow & Hhigh & Hshown).
      { subst st1. cbn [all_data page].
        rewrite Hall, <- Hdata. subst rest.
        rewrite Nat.mul_add_distr_r, Nat.mul_1_l. apply take_take_drop. }
      { subst st1. cbn [page]. rewrite Nat.mul_add_distr_r. lia. }
      { subst st1. cbn [page]. rewrite Nat.mul_add_distr_r.
        simpl in Hfuel. lia. }
      subst st1. cbn [all_data page requested fetch_shown] in *.
      exists st', (S n). split; [exact Hrun|]. split; [done|].
      replace (page st + 1 + n) with (page st + S n) in Hlow by lia.
      replace (page st + 1 + S n) with (page st + S (S n)) in Hhigh by lia.
      split; [|done].
      rewrite Hreq, <- (assoc_L (++)).
      change (seq (page st) (S (S n))) with (page st :: seq (S (page st)) (S n)).
      rewrite fmap_cons. by rewrite Nat.add_1_r.
Qed.

(** X4. Against a store that holds the rows of a table and answers each
    request with the rows from the offset on, at most the limit, the loop
    of [load_data] ends once [fuel] pages can hold the table, the rows
    accumulated are the whole table in its order, nothing is shown by
    [st.error], and the number of requests is the number of full pages
    plus one; [load_data] returns None exactly when the table is empty. *)
Theorem fetch_whole_table (to_datetime : list value → option (list value))
    (tables : string → list record) (table_name : string) (fuel : nat) :
  length (tables table_name) < fuel * limit →
  ∃ st r n,
    fetch fuel (table_server tables) table_name = Some st
    ∧ all_data st = tables table_name
    ∧ requested st = (λ i, i * limit) <$> seq 0 (S n)
    ∧ n * limit ≤ length (tables table_name) < S n * limit
    ∧ fetch_shown st = []
    ∧ load_data to_datetime fuel (table_server tables) table_name = Some r
    ∧ (returned r = None ↔ tables table_name = []).
Proof.
  intros Hfuel.
  destruct (fetch_loop_table limit ltac:(unfold limit; lia) tables table_name
              fuel (mkFetch [] 0 [] []))
    as (st & n & Hrun & Hall & Hreq & Hlow & Hhigh & Hshown).
  { done. }
  { cbn [page]. lia. }
  { cbn [page]. lia. }
  cbn [page requested fetch_shown app Nat.add] in *.
  destruct (load_data_of_fetch to_datetime _ _ _ _ Hrun) as (r & Hr & _ & Hnone).
  exists st, r, n. rewrite <- Hall at 4. eauto 10.
Qed.

Lemma fetch_whole_table_witness :
  ∃ st,
    fetch 3 store_of_2400 "betting_analytics" = Some st
    ∧ all_data st = profit_page 0 2400
    ∧ requested st = [0; 1000; 2000].
Proof.
  destruct (fetch_whole_table all_NaT (λ _, profit_page 0 2400)
              "betting_analytics" 3)
    as (st & r & n & Hrun & Hall & Hreq & [Hlow Hhigh] & _).
  { vm_compute. lia. }
  exists st. split; [exact Hrun|]. split; [exact Hall|].
  assert (n = 2) as ->.
  { unfold profit_page in Hlow, Hhigh.
    rewrite length_fmap, length_seq in Hlow, Hhigh. unfold limit in *. lia. }
  exact Hreq.
Defined.

(** ** What [load_data] returns and shows *)

Lemma keep_first_covers subset (rs : list record) :
  ∀ seen r,
    r ∈ rs →
    row_key subset r ∈ seen
    ∨ ∃ r', r' ∈ keep_first subset seen rs ∧ row_key subset r' = row_key subset r.
Proof.
  induction rs as [|a rs IH]; intros seen r Hr; [by apply elem_of_nil in Hr|].
  simpl. apply elem_of_cons in Hr as [->|Hr].
  - case_decide; [by left|]. right. exists a. split; [by left|done].
  - case_decide as Ha.
    + by apply IH.
    + destruct (IH (row_key subset a :: seen) r Hr) as [Hseen|(r' & Hin & Hkey)].
      * apply elem_of_cons in Hseen as [Heq|Hseen]; [|by left].
        right. exists a. split; [by left|done].
      * right. exists r'. split; [by right|done].
Qed.

Section Cleaning.

Context (to_datetime : list value → option (list value)).

Hypothesis to_datetime_length :
  ∀ vs ws, to_datetime vs = Some ws → length ws = length vs.

(** The parts of a call of [load_data] that returned a frame. *)
Lemma load_data_frame fuel get table_name r df :
  load_data to_datetime fuel get table_name = Some r →
  returned r = Some df →
  ∃ st df0 ui0,
    fetch fuel get table_name = Some st
    ∧ all_data st ≠ []
    ∧ convert_dates to_datetime table_name (DataFrame_of_records (all_data st))
      = (df0, ui0)
    ∧ df = remove_duplicates table_name df0
    ∧ shown r
      = fetch_shown st
        ++ (ui0 ++ removal_messages table_name (len df0 - len df))
        ++ [st_sidebar_success (CleanedData (len df) table_name)]
    ∧ offsets r = requested st.
Proof using.
  unfold load_data. destruct (fetch fuel get table_name) as [st|]; [|done].
  simpl. destruct (all_data st) as [|a rs] eqn:Hdata.
  { by intros [= <-]. }
  unfold clean.
  destruct (convert_dates _ _ _) as [df0 ui0] eqn:Hconv.
  intros [= <-]. simpl. intros [= <-].
  exists st, df0, ui0. rewrite Hdata.
  split; [done|]. split; [done|]. split; [done|]. split; [done|].
  split; [|done]. unfold removal_messages.
  f_equal. by destruct (0 <? _); rewrite <- ?(assoc_L (++)).
Qed.

Lemma convert_date_cols_shown table_name (cols : list string) :
  NoDup cols →
  ∀ df ui,
    (foldl (convert_date_col to_datetime table_name) (df, ui) cols).2
    = ui ++ mjoin (conversion_messages to_datetime table_name df <$> cols).
Proof using to_datetime_length.
  induction cols as [|c cols IH]; intros Hnd df ui; cbn [foldl snd].
  { by rewrite app_nil_r. }
  apply NoDup_cons in Hnd as [Hc Hnd].
  pose proof (convert_date_cols_fold to_datetime to_datetime_length table_name
                [c] ltac:(by apply NoDup_singleton) df ui)
    as (Hcols1 & _ & Hser1 & _).
  cbn [foldl] in Hcols1, Hser1.
  assert ((convert_date_col to_datetime table_name (df, ui) c).2
          = ui ++ conversion_messages to_datetime table_name df c) as Hui1.
  { unfold convert_date_col, conversion_messages.
    case_decide as Hin; [|by rewrite app_nil_r].
    destruct (to_datetime (series df c)) as [ws|] eqn:Hconv; [|done].
    rewrite series_set_column, decide_True by
      (try done; rewrite (to_datetime_length _ _ Hconv); apply length_fmap).
    destruct (0 <? null_count_of ws); simpl; [done|by rewrite app_nil_r]. }
  destruct (convert_date_col to_datetime table_name (df, ui) c) as [df1 ui1].
  simpl in Hcols1, Hser1, Hui1. rewrite IH, Hui1, <- (assoc_L (++)) by done.
  f_equal. rewrite fmap_cons. simpl. f_equal. f_equal.
  apply list_fmap_ext. intros i c' Hc'.
  assert (c' ≠ c) as Hne.
  { intros ->. apply Hc. by eapply list_elem_of_lookup_2. }
  unfold conversion_messages. rewrite Hcols1, Hser1.
  rewrite (decide_False (P := c' ∈ [c] ∧ c' ∈ columns df)); [done|].
  rewrite list_elem_of_singleton. by intros [? _].
Qed.

(** X5. The conversion of the date columns shows, for start_time,
    bet_logged and created_at in this order and for each one present, a
    warning with the number of missing values in the converted column
    when there are any, or an error when the conversion raised; it reads
    each column as it was fetched, gives each date column present its
    converted series (or leaves it when the conversion raised), and
    leaves every other column as it was. *)
Theorem convert_dates_report (table_name : string) (df : DataFrame) :
  (convert_dates to_datetime table_name df).2
  = mjoin (conversion_messages to_datetime table_name df <$> date_cols)
  ∧ (∀ col, col ∈ date_cols → col ∈ columns df →
       series (convert_dates to_datetime table_name df).1 col
       = default (series df col) (to_datetime (series df col)))
  ∧ (∀ col, col ∉ date_cols →
       series (convert_dates to_datetime table_name df).1 col = series df col).
Proof using to_datetime_length.
  pose proof (convert_date_cols_fold to_datetime to_datetime_length table_name
                date_cols date_cols_NoDup df []) as (_ & _ & Hser & _).
  pose proof (convert_date_cols_shown table_name date_cols date_cols_NoDup df [])
    as Hshown.
  fold (convert_dates to_datetime table_name df) in Hser, Hshown.
  split; [exact Hshown|]. split.
  - intros col Hdate Hcol. by rewrite Hser, decide_True.
  - intros col Hdate. rewrite Hser, decide_False; [done|]. by intros [? _].
Qed.

(** X6. A frame that [load_data] returns has pairwise distinct ids when
    it has an id column, and for ev_daily_bets pairwise distinct tuples
    (event, start_time, outcome, stake, odds) when it has these columns;
    its columns are the keys that occur in the fetched rows, and every one
    of its rows has a cell for every column. *)
Theorem load_data_frame_invariants (fuel : nat) (get : server)
    (table_name : string) (r : load_result) (df : DataFrame) :
  load_data to_datetime fuel get table_name = Some r →
  returned r = Some df →
  ("id" ∈ columns df → unique_on ["id"] df)
  ∧ (table_name = "ev_daily_bets" → has_columns unique_cols df = true →
     unique_on unique_cols df)
  ∧ (∃ st, fetch fuel get table_name = Some st
           ∧ columns df = ⋃ (dom <$> all_data st))
  ∧ (∀ row, row ∈ rows df → dom row = columns df).
Proof using to_datetime_length.
  intros Hload Hret.
  destruct (load_data_frame _ _ _ _ _ Hload Hret)
    as (st & df0 & ui0 & Hfetch & _ & Hconv & -> & _).
  pose proof (convert_date_cols_fold to_datetime to_datetime_length table_name
                date_cols date_cols_NoDup (DataFrame_of_records (all_data st)) [])
    as (Hcols & _).
  fold (convert_dates to_datetime table_name (DataFrame_of_records (all_data st)))
    in Hcols.
  rewrite Hconv in Hcols. simpl in Hcols.
  rewrite columns_remove_duplicates.
  split; [|split; [|split]].
  - intros Hid. by apply remove_duplicates_unique_id.
  - intros -> Hhas.
    rewrite (has_columns_same _ df0) in Hhas by apply columns_remove_duplicates.
    by apply remove_duplicates_unique_business_key.
  - exists st. split; [done|]. by rewrite Hcols.
  - intros row Hrow.
    eapply elem_of_sublist in Hrow; [|apply remove_duplicates_sublist].
    revert row Hrow. rewrite <- Forall_forall.
    assert (∀ cols df1 ui1,
              Forall (λ row, dom row = columns df1) (rows df1) →
              Forall (λ row, dom row
                             = columns (foldl (convert_date_col to_datetime table_name)
                                          (df1, ui1) cols).1)
                (rows (foldl (convert_date_col to_datetime table_name)
                         (df1, ui1) cols).1)) as Hfold.
    { induction cols as [|c cols IH]; intros df1 ui1 Hrect; [done|].
      cbn [foldl].
      destruct (convert_date_col to_datetime table_name (df1, ui1) c)
        as [df2 ui2] eqn:Hstep.
      apply IH. unfold convert_date_col in Hstep.
      case_decide; [|by injection Hstep as <- <-].
      destruct (to_datetime (series df1 c)) as [ws|]; [|by injection Hstep as <- <-].
      assert (df2 = set_column df1 c ws) as -> by (by case_match; injection Hstep).
      simpl. clear Hstep. revert ws.
      induction Hrect as [|row rs Hrow Hrect IHrect]; intros [|w ws]; simpl;
        constructor; auto.
      rewrite dom_insert_L. by rewrite Hrow. }
    specialize (Hfold date_cols (DataFrame_of_records (all_data st)) []).
    fold (convert_dates to_datetime table_name (DataFrame_of_records (all_data st)))
      in Hfold.
    rewrite Hconv in Hfold. apply Hfold. simpl.
    apply Forall_fmap, Forall_forall. intros row Hrow. simpl.
    unfold fill. rewrite dom_union_L, dom_gset_to_gmap.
    apply leibniz_equiv, subseteq_union_1.
    intros col Hcol. apply elem_of_union_list.
    exists (dom row). split; [|done]. apply list_elem_of_fmap. eauto.
Qed.

(** X7. When [load_data] returns a frame it shows, after the error of the
    loop if any and the messages of the conversion, a warning with the
    number of rows removed exactly when rows were removed, and last the
    success message with the length of the frame; that length and the
    number removed add up to the number of rows fetched. *)
Theorem load_data_messages (fuel : nat) (get : server) (table_name : string)
    (r : load_result) (df : DataFrame) :
  load_data to_datetime fuel get table_name = Some r →
  returned r = Some df →
  ∃ st,
    fetch fuel get table_name = Some st
    ∧ len df ≤ length (all_data st)
    ∧ shown r
      = fetch_shown st
        ++ (mjoin (conversion_messages to_datetime table_name
                     (DataFrame_of_records (all_data st)) <$> date_cols)
            ++ removal_messages table_name (length (all_data st) - len df))
        ++ [st_sidebar_success (CleanedData (len df) table_name)].
Proof using to_datetime_length.
  intros Hload Hret.
  destruct (load_data_frame _ _ _ _ _ Hload Hret)
    as (st & df0 & ui0 & Hfetch & _ & Hconv & -> & Hshown & _).
  pose proof (convert_date_cols_fold to_datetime to_datetime_length table_name
                date_cols date_cols_NoDup (DataFrame_of_records (all_data st)) [])
    as (_ & Hlen & _).
  pose proof (convert_date_cols_shown table_name date_cols date_cols_NoDup
                (DataFrame_of_records (all_data st)) []) as Hui.
  fold (convert_dates to_datetime table_name (DataFrame_of_records (all_data st)))
    in Hlen, Hui.
  rewrite Hconv in Hlen, Hui. simpl in Hlen, Hui.
  rewrite len_DataFrame_of_records in Hlen.
  exists st. split; [done|]. split.
  - rewrite <- Hlen. apply sublist_length, remove_duplicates_sublist.
  - by rewrite Hshown, Hui, Hlen.
Qed.

End Cleaning.

Lemma convert_dates_report_witness :
  (convert_dates sample_to_datetime "ev_daily_bets"
     (DataFrame_of_records raw_dates)).2
  = [st_sidebar_warning (ValuesNotConverted 1 "start_time" "ev_daily_bets")].
Proof.
  destruct (convert_dates_report sample_to_datetime sample_to_datetime_length
              "ev_daily_bets" (DataFrame_of_records raw_dates)) as (Hshown & _).
  rewrite Hshown. vm_compute. reflexivity.
Defined.

Lemma load_data_frame_invariants_witness :
  ∃ df,
    (returned <$> load_data sample_to_datetime 2 sample_store "ev_daily_bets")
    = Some (Some df)
    ∧ unique_on ["id"] df ∧ unique_on unique_cols df.
Proof.
  edestruct (load_data_frame_invariants sample_to_datetime
               sample_to_datetime_length 2 sample_store "ev_daily_bets")
    as (Hid & Hkey & _).
  - vm_compute. reflexivity.
  - reflexivity.
  - eexists. split; [vm_compute; reflexivity|]. split.
    + apply Hid. vm_compute. reflexivity.
    + apply Hkey; [reflexivity|]. vm_compute. reflexivity.
Defined.

Lemma load_data_messages_witness :
  ∃ r,
    load_data sample_to_datetime 2 sample_store "ev_daily_bets" = Some r
    ∧ shown r = [st_sidebar_warning (RemovedDuplicates 1 "ev_daily_bets");
                 st_sidebar_success (CleanedData 1 "ev_daily_bets")].
Proof.
  edestruct (load_data_messages sample_to_datetime sample_to_datetime_length
               2 sample_store "ev_daily_bets") as (st & Hfetch & _ & Hshown).
  - vm_compute. reflexivity.
  - reflexivity.
  - vm_compute in Hfetch. injection Hfetch as <-.
    eexists. split; [vm_compute; reflexivity|].
    rewrite Hshown. vm_compute. reflexivity.
Defined.

(** ** The comparisons with the current moment, on any frame *)

Lemma compare_cell_ok op ts (v : value) :
  aware_or_NaT v = true ∧ tz_aware ts = true
  ∨ naive_or_NaT v = true ∧ tz_aware ts = false →
  compare_cell op ts v = Some (timestamp_test op (nanos ts) v).
Proof.
  destruct ts as [aw now]. simpl.
  destruct v as [| | | |a t|]; simpl; intros [[Hv ->]|[Hv ->]];
    try discriminate; try done; destruct a; try discriminate;
    by rewrite decide_True.
Qed.

Lemma series_compare op ts (s : list value) :
  tz_aware ts = true ∧ forallb aware_or_NaT s = true
  ∨ tz_aware ts = false ∧ forallb naive_or_NaT s = true →
  mapM (compare_cell op ts) s = Some (timestamp_test op (nanos ts) <$> s).
Proof.
  intros Hmatch. apply mapM_Some, Forall2_fmap_r, Forall_Forall2_diag, Forall_forall.
  intros v Hv. apply compare_cell_ok.
  destruct Hmatch as [[Hts Hall]|[Hts Hall]];
    rewrite forallb_forall in Hall; [left|right];
    (split; [apply Hall; by apply list_elem_of_In|done]).
Qed.

(** The moment that the two comparisons use has the awareness of a
    datetime column. *)
Lemma moment_matches (s : list value) now :
  is_datetime64_any_dtype s = true →
  let ts := if dt_tz_is_None s
            then tz_localize_None (Timestamp_now_utc now)
            else Timestamp_now_utc now in
  nanos ts = now
  ∧ (tz_aware ts = true ∧ forallb aware_or_NaT s = true
     ∨ tz_aware ts = false ∧ forallb naive_or_NaT s = true).
Proof.
  unfold is_datetime64_any_dtype, dt_tz_is_None.
  destruct (forallb aware_or_NaT s); simpl; intros Hdt; split; auto.
Qed.

Lemma select_rows_test (g : record → bool) (rs : list record) :
  select_rows rs (g <$> rs) = filter (λ r, g r = true) rs.
Proof.
  induction rs as [|r rs IH]; [done|]. csimpl.
  destruct (g r) eqn:Hg.
  - rewrite filter_cons_True by done. by rewrite IH.
  - rewrite filter_cons_False by congruence. done.
Qed.

Lemma boolean_index_test op now col df :
  boolean_index df (timestamp_test op now <$> series df col)
  = rows_where op now col df.
Proof.
  unfold boolean_index, rows_where, series. f_equal.
  rewrite <- list_fmap_compose. apply select_rows_test.
Qed.

Lemma future_date_check_unfold df now :
  future_date_check df now
  = if decide (date_col_to_check df ∈ columns df) then
      let current_time :=
        if is_datetime64_any_dtype (series df (date_col_to_check df)) then
          if dt_tz_is_None (series df (date_col_to_check df))
          then tz_localize_None (Timestamp_now_utc now)
          else Timestamp_now_utc now
        else Timestamp_now_utc now in
      mask ← series_gt (series df (date_col_to_check df)) current_time;
      let future_records := boolean_index df mask in
      if 0 <? len future_records
      then Some (Some future_records,
                 [st_sidebar_warning
                    (FoundFutureDates (len future_records) (date_col_to_check df))])
      else Some (Some future_records, [])
    else Some (None, []).
Proof. reflexivity. Qed.

(** X8. On a frame whose chosen date column (bet_logged, else created_at,
    else start_time) has a datetime dtype, aware or naive, the check in
    the sidebar does not raise: its future records are the rows of the
    frame, in order, whose cell is a timestamp strictly after the current
    moment (a row holding NaT is not one), and the warning is shown with
    their number exactly when there is one. *)
Theorem future_date_check_datetime (df : DataFrame) (now : Z) :
  date_col_to_check df ∈ columns df →
  is_datetime64_any_dtype (series df (date_col_to_check df)) = true →
  let future_records := rows_where Z.gtb now (date_col_to_check df) df in
  future_date_check df now
  = Some (Some future_records,
          if 0 <? len future_records
          then [st_sidebar_warning
                  (FoundFutureDates (len future_records) (date_col_to_check df))]
          else []).
Proof.
  intros Hcol Hdt. rewrite future_date_check_unfold.
  rewrite decide_True by done. rewrite Hdt. cbn zeta.
  destruct (moment_matches _ now Hdt) as [Hnow Hmatch].
  unfold series_gt. rewrite (series_compare _ _ _ Hmatch), Hnow. simpl.
  rewrite boolean_index_test. by destruct (0 <? _).
Qed.

Lemma future_date_check_datetime_witness :
  future_date_check naive_dates 10
  = Some (Some {| columns := {["start_time"]};
                  rows := [ {[ "start_time" := VTimestamp false 20 ]} ] |},
          [st_sidebar_warning (FoundFutureDates 1 "start_time")]).
Proof.
  rewrite (future_date_check_datetime naive_dates 10).
  - vm_compute. reflexivity.
  - vm_compute. reflexivity.
  - vm_compute. reflexivity.
Defined.

(** X9. The filter of the cumulative profit chart never raises.  On a
    frame with rows whose chart column is present with a datetime dtype,
    aware or naive, it keeps the rows, in order, whose cell is a timestamp
    not after the current moment, reports the number of rows dropped
    exactly when some were, and warns when none is left; on an empty
    frame, or when the column is missing or not datetime, it filters
    nothing and shows one warning. *)
Theorem cumulative_profit_filter_result (table_option : string) (df : DataFrame)
    (now : Z) :
  let date_col := chart_date_col table_option df in
  let df_filtered := rows_where Z.leb now date_col df in
  cumulative_profit_filter table_option df now
  = if 0 <? len df then
      if bool_decide (date_col ∈ columns df)
         && is_datetime64_any_dtype (series df date_col)
      then Some (Some df_filtered,
                 (if len df_filtered <? len df
                  then [st_info (FilteredOutFuture (len df - len df_filtered))]
                  else [])
                 ++ (if 0 <? len df_filtered then []
                     else [st_warning NoDataAfterFiltering]))
      else Some (None, [st_warning (DateColumnNotAvailable date_col)])
    else Some (None, [st_warning NoDataForCumulativeProfit]).
Proof.
  intros date_col df_filtered. unfold cumulative_profit_filter.
  fold date_col.
  destruct (0 <? len df); [|done].
  destruct (bool_decide _ && is_datetime64_any_dtype _) eqn:Hguard; [|done].
  apply andb_prop in Hguard as [_ Hdt].
  destruct (moment_matches _ now Hdt) as [Hnow Hmatch].
  unfold series_le. rewrite (series_compare _ _ _ Hmatch), Hnow. simpl.
  rewrite boolean_index_test. fold df_filtered.
  destruct (0 <? len df_filtered); [by rewrite app_nil_r|done].
Qed.

(** X10. The check in the sidebar compares the chosen column with the
    current moment whatever the column holds: when a cell under it is
    text the comparison raises, whereas the filter of the cumulative
    profit chart, reading the same column, only warns that the column is
    not in datetime format. *)
Theorem text_column_raises_in_sidebar (table_option : string) (df : DataFrame)
    (now : Z) (r : record) (s : string) :
  date_col_to_check df ∈ columns df →
  r ∈ rows df →
  cell r (date_col_to_check df) = VStr s →
  future_date_check df now = None
  ∧ (chart_date_col table_option df = date_col_to_check df →
     cumulative_profit_filter table_option df now
     = Some (None, [st_warning (DateColumnNotAvailable (date_col_to_check df))])).
Proof.
  intros Hcol Hrow Hcell.
  assert (VStr s ∈ series df (date_col_to_check df)) as Htext.
  { apply list_elem_of_fmap. exists r. by rewrite Hcell. }
  assert (is_datetime64_any_dtype (series df (date_col_to_check df)) = false) as Hdt.
  { unfold is_datetime64_any_dtype. apply orb_false_intro;
      apply not_true_is_false; intros Hall; rewrite forallb_forall in Hall;
      by specialize (Hall _ (proj1 (list_elem_of_In _ _) Htext)). }
  split.
  - rewrite future_date_check_unfold, decide_True by done.
    rewrite Hdt. cbn zeta. unfold series_gt.
    rewrite (proj2 (mapM_None _ _)); [done|].
    apply Exists_exists. exists (VStr s). by split.
  - intros Hsame. unfold cumulative_profit_filter. rewrite Hsame, Hdt.
    rewrite andb_false_r.
    destruct (rows df) as [|a rs] eqn:Hrows; [by apply elem_of_nil in Hrow|].
    unfold len. by rewrite Hrows.
Qed.

Lemma text_column_raises_in_sidebar_witness :
  future_date_check text_dates 10 = None
  ∧ cumulative_profit_filter "matched_betting_bets" text_dates 10
    = Some (None, [st_warning (DateColumnNotAvailable "start_time")]).
Proof.
  destruct (text_column_raises_in_sidebar "matched_betting_bets" text_dates 10
              {[ "start_time" := VStr "tomorrow" ]} "tomorrow")
    as [Hraise Hwarn].
  - vm_compute. reflexivity.
  - vm_compute. by left.
  - vm_compute. reflexivity.
  - split; [exact Hraise|]. apply Hwarn. vm_compute. reflexivity.
Defined.

(** ** The table selection and the duplicate handling option *)

(** X11. [remove_duplicate_bets] keeps the columns and the order of the
    rows, never drops the last holder of a business key (every row of the
    frame has a kept row with its tuple of event, start_time, outcome,
    stake, odds), and shows the length it leaves and the number of rows
    it removed, which add up to the length it was given. *)
Theorem remove_duplicate_bets_keeps_every_bet (df : DataFrame)
    (table_name : string) :
  columns (remove_duplicate_bets df table_name).1 = columns df
  ∧ rows (remove_duplicate_bets df table_name).1 `sublist_of` rows df
  ∧ (∀ r, r ∈ rows df →
       ∃ r', r' ∈ rows (remove_duplicate_bets df table_name).1
             ∧ row_key unique_cols r' = row_key unique_cols r)
  ∧ ∃ removed,
      (remove_duplicate_bets df table_name).2
      = [st_sidebar_info
           (FilteredUnique (len (remove_duplicate_bets df table_name).1) removed)]
      ∧ len (remove_duplicate_bets df table_name).1 + removed = len df.
Proof.
  unfold remove_duplicate_bets. cbn [fst snd].
  set (out := if decide (table_name = "ev_daily_bets")
              then if has_columns unique_cols df
                   then drop_duplicates unique_cols df else df
              else df).
  assert (columns out = columns df ∧ rows out `sublist_of` rows df
          ∧ ∀ r, r ∈ rows df →
              ∃ r', r' ∈ rows out ∧ row_key unique_cols r' = row_key unique_cols r)
    as (Hcols & Hsub & Hcover).
  { subst out. case_decide; [case_match|]; try (repeat split; eauto; done).
    split; [done|]. split; [apply keep_first_sublist|].
    intros r Hr.
    destruct (keep_first_covers unique_cols (rows df) [] r Hr) as [Hseen|Hkept];
      [by apply elem_of_nil in Hseen|done]. }
  split; [done|]. split; [done|]. split; [done|].
  exists (len df - len out). split; [done|].
  apply sublist_length in Hsub. unfold len. lia.
Qed.

Section Option.

Context (to_datetime : list value → option (list value)).

Lemma duplicate_handling_keeps (P : Prop) `{Decision P} (df : DataFrame) :
  (remove_duplicate_bets df "ev_daily_bets").1 = df →
  ∃ ui, (if decide P then remove_duplicate_bets df "ev_daily_bets" else (df, []))
        = (df, ui).
Proof.
  intros Hsame. case_decide; [|by eexists].
  destruct (remove_duplicate_bets df "ev_daily_bets") as [d u].
  simpl in Hsame. subst d. by eexists.
Qed.

Lemma tagged_ev_daily_bets_unchanged fuel get r df :
  load_data to_datetime fuel get "ev_daily_bets" = Some r →
  returned r = Some df →
  (remove_duplicate_bets
     (set_scalar df "data_source" (VStr "ev_daily_bets")) "ev_daily_bets").1
  = set_scalar df "data_source" (VStr "ev_daily_bets").
Proof.
  intros Hload Hret. apply remove_duplicate_bets_unchanged. intros _ Hcols.
  apply unique_on_set_scalar; [apply data_source_not_unique_col|].
  rewrite has_columns_set_scalar in Hcols by apply data_source_not_unique_col.
  by eapply load_data_unique_business_key.
Qed.

(** X12. The duplicate handling option changes no data: for every table
    option, with "Keep first occurrence only" or without, the script
    stops in the same cases and selects the same frame (and the same
    three tagged frames in All Tables mode), because [load_data] has
    already removed what [remove_duplicate_bets] would remove. *)
Theorem duplicate_handling_changes_no_data (fuel : nat) (get : server)
    (table_option duplicate_handling duplicate_handling' : string) :
  selected_frames (select_data to_datetime fuel get table_option duplicate_handling)
  = selected_frames (select_data to_datetime fuel get table_option duplicate_handling').
Proof.
  unfold select_data.
  destruct (decide (table_option = "All Tables")) as [_|Hsingle].
  - destruct (load_data to_datetime fuel get "betting_analytics") as [r1|]; [|done].
    destruct (load_data to_datetime fuel get "ev_daily_bets") as [r2|] eqn:H2; [|done].
    destruct (load_data to_datetime fuel get "matched_betting_bets") as [r3|]; [|done].
    simpl.
    destruct (returned r1) as [f1|]; [|done].
    destruct (returned r2) as [f2|] eqn:Hf2; [|done].
    destruct (returned r3) as [f3|]; [|done].
    pose proof (tagged_ev_daily_bets_unchanged _ _ _ _ H2 Hf2) as Hsame.
    destruct (duplicate_handling_keeps
                (duplicate_handling = "Keep first occurrence only") _ Hsame)
      as [ui ->].
    destruct (duplicate_handling_keeps
                (duplicate_handling' = "Keep first occurrence only") _ Hsame)
      as [ui' ->].
    done.
  - destruct (load_data to_datetime fuel get table_option) as [r|] eqn:Hload; [|done].
    simpl. destruct (returned r) as [df|] eqn:Hret; [|done].
    assert (∀ dh : string,
              ∃ ui, (if decide (dh = "Keep first occurrence only"
                                ∧ table_option = "ev_daily_bets")
                     then remove_duplicate_bets df "ev_daily_bets" else (df, []))
                    = (df, ui)) as Hkeep.
    { intros dh. case_decide as Hcase; [|by eexists].
      destruct Hcase as [_ ->].
      destruct (remove_duplicate_bets df "ev_daily_bets") as [d u] eqn:Hrun.
      assert (d = df) as ->; [|by eexists].
      change d with (d, u).1. rewrite <- Hrun.
      apply remove_duplicate_bets_unchanged. intros _ Hcols.
      by eapply load_data_unique_business_key. }
    destruct (Hkeep duplicate_handling) as [ui ->].
    destruct (Hkeep duplicate_handling') as [ui' ->].
    done.
Qed.

(** X13. For a single table the script selects the very frame that
    [load_data] returned, without a data_source column and whatever the
    duplicate handling option, and it stops with an error exactly when
    [load_data] returned None. *)
Theorem single_table_selection (fuel : nat) (get : server)
    (table_option duplicate_handling : string) (r : load_result) :
  table_option ≠ "All Tables" →
  load_data to_datetime fuel get table_option = Some r →
  match returned r with
  | Some df =>
      ∃ ui, select_data to_datetime fuel get table_option duplicate_handling
            = Some (Selected df None (shown r ++ ui))
  | None =>
      select_data to_datetime fuel get table_option duplicate_handling
      = Some (Stopped (shown r ++ [st_error (FailedToLoadTable table_option)]))
  end.
Proof.
  intros Hsingle Hload. unfold select_data.
  rewrite decide_False by done. rewrite Hload. simpl.
  destruct (returned r) as [df|] eqn:Hret; [|done].
  case_decide as Hcase; [|by eexists].
  destruct Hcase as [_ ->].
  destruct (remove_duplicate_bets df "ev_daily_bets") as [d u] eqn:Hrun.
  assert (d = df) as ->; [|by eexists].
  change d with (d, u).1. rewrite <- Hrun.
  apply remove_duplicate_bets_unchanged. intros _ Hcols.
  by eapply load_data_unique_business_key.
Qed.

End Option.

Lemma single_table_selection_witness :
  ∃ df ui,
    select_data sample_to_datetime 2 sample_store "ev_daily_bets"
      "Keep first occurrence only"
    = Some (Selected df None ui)
    ∧ len df = 1.
Proof.
  assert (∃ r df, load_data sample_to_datetime 2 sample_store "ev_daily_bets"
                  = Some r
                  ∧ returned r = Some df ∧ len df = 1)
    as (r & df & Hload & Hret & Hlen).
  { eexists; eexists. split; [vm_compute; reflexivity|].
    split; [reflexivity|]. vm_compute. reflexivity. }
  pose proof (single_table_selection sample_to_datetime 2 sample_store
                "ev_daily_bets" "Keep first occurrence only" r
                ltac:(discriminate) Hload) as Hsel.
  rewrite Hret in Hsel. destruct Hsel as [ui Hsel].
  exists df, (shown r ++ ui). split; [exact Hsel|exact Hlen].
Defined.

(** ** The conversion under the contract of [errors='coerce'] *)

Lemma sample_to_datetime_returns vs : is_Some (sample_to_datetime vs).
Proof. by eexists. Qed.

Section Coercion.

Context (to_datetime : list value → option (list value)).

(** [pd.to_datetime(..., errors='coerce', utc=True)]: a value that does
    not parse becomes NaT, so the call returns, with a series as long as
    its argument, of timestamps in UTC and NaT. *)
Hypothesis to_datetime_returns : ∀ vs, is_Some (to_datetime vs).
Hypothesis to_datetime_length :
  ∀ vs ws, to_datetime vs = Some ws → length ws = length vs.
Hypothesis to_datetime_values :
  ∀ vs ws, to_datetime vs = Some ws → Forall (λ w, aware_or_NaT w = true) ws.

(** C8. The conversion step completes for every frame, with the columns
    and the length of its input and without the error of a failed
    conversion, however many values fail to parse.  After it every column
    named start_time, bet_logged or created_at present in the frame holds
    only timezone-aware timestamps and NaT, never the raw text, and so
    does the frame that [load_data] goes on to deduplicate. *)
Theorem convert_dates_normalises (table_name : string) (df : DataFrame)
    (col : string) :
  col ∈ date_cols →
  col ∈ columns df →
  ∃ out ui,
    convert_dates to_datetime table_name df = (out, ui)
    ∧ columns out = columns df
    ∧ len out = len df
    ∧ Forall (λ v, aware_or_NaT v = true) (series out col)
    ∧ (∀ v s, v ∈ series out col → v ≠ VStr s)
    ∧ (∀ r, r ∈ rows (remove_duplicates table_name out) →
            aware_or_NaT (cell r col) = true)
    ∧ (∀ c, st_sidebar_error (ErrorConverting c table_name) ∉ ui).
Proof using to_datetime_returns to_datetime_length to_datetime_values.
  intros Hdate Hcol.
  destruct (convert_dates_tried to_datetime to_datetime_length to_datetime_values
              table_name df col Hdate Hcol)
    as (out & ui & Hrun & Hcols & Hlen & Hok & _).
  destruct (Hok (to_datetime_returns _)) as [Hall Hrows].
  exists out, ui.
  split; [done|]. split; [done|]. split; [done|]. split; [done|].
  split; [|split; [done|]].
  - intros v s Hv ->. rewrite Forall_forall in Hall.
    by specialize (Hall _ Hv).
  - intros c Hin.
    pose proof (convert_date_cols_shown to_datetime to_datetime_length table_name
                  date_cols date_cols_NoDup df []) as Hshown.
    fold (convert_dates to_datetime table_name df) in Hshown.
    rewrite Hrun in Hshown. cbn [snd] in Hshown. rewrite Hshown in Hin.
    apply elem_of_app in Hin as [Hin|Hin]; [by apply elem_of_nil in Hin|].
    apply list_elem_of_join in Hin as (msgs & Hin & Hmsgs).
    apply list_elem_of_fmap in Hmsgs as (c' & -> & _).
    unfold conversion_messages in Hin.
    case_decide; [|by apply elem_of_nil in Hin].
    destruct (to_datetime_returns (series df c')) as [ws Hws].
    rewrite Hws in Hin.
    destruct (0 <? null_count_of ws); [|by apply elem_of_nil in Hin].
    by apply list_elem_of_singleton in Hin.
Qed.

End Coercion.

(** On the sample, the text that parses becomes a timestamp and the other
    becomes NaT. *)
Lemma convert_dates_normalises_witness :
  ∃ out ui,
    convert_dates sample_to_datetime "ev_daily_bets" (DataFrame_of_records raw_dates)
    = (out, ui)
    ∧ series out "start_time" = [VTimestamp true 1704067200000000000; VNaT]
    ∧ Forall (λ v, aware_or_NaT v = true) (series out "start_time").
Proof.
  destruct (convert_dates_normalises sample_to_datetime
              sample_to_datetime_returns sample_to_datetime_length
              sample_to_datetime_values
              "ev_daily_bets" (DataFrame_of_records raw_dates) "start_time")
    as (out & ui & Hrun & _ & _ & Hall & _).
  - vm_compute. by left.
  - vm_compute. reflexivity.
  - exists out, ui. split; [exact Hrun|]. split; [|exact Hall].
    vm_compute in Hrun. injection Hrun as <- _. vm_compute. reflexivity.
Defined.
